(** * jiub: thread_reader

    A shallow embedding of [jiub/thread_reader.py], the module that reads the
    state of a forum game (phase, roster, actions, events) out of the rendered
    pages of its thread, and the properties of it that the specification
    states.

    Python values are modelled as follows.
    - [int] is [Z]; [str] is [string].
    - a BeautifulSoup document is a tree of [node]s, as the parser builds it;
    - a raised exception is the [Raise] case of [result], and [try/except]
      is [try_except];
    - the network, [int()] on text, [re.compile] and [re.match],
      [str.lower], [str.strip] and [unicodedata.normalize] are the fields of
      the class [Host]: the functions are stated and proved for every
      host. *)

From Stdlib Require Import ZArith List String Ascii Bool Lia.
From Stdlib Require Import DecimalString.
Import ListNotations.

Local Open Scope string_scope.
Local Open Scope list_scope.
Local Open Scope Z_scope.

(** ** Exceptions *)

(** The exception classes the module can meet; [ReError] is [re.error]. *)
Inductive exn : Type :=
| AttributeError
| IndexError
| ValueError
| KeyError
| TypeError
| OverflowError
| ZeroDivisionError
| ReError.

Definition exn_eqb (a b : exn) : bool :=
  match a, b with
  | AttributeError, AttributeError
  | IndexError, IndexError
  | ValueError, ValueError
  | KeyError, KeyError
  | TypeError, TypeError
  | OverflowError, OverflowError
  | ZeroDivisionError, ZeroDivisionError
  | ReError, ReError => true
  | _, _ => false
  end.

(** The outcome of running a piece of Python: a value, or an exception on its
    way to the caller. *)
Inductive result (A : Type) : Type :=
| Ok (a : A)
| Raise (e : exn).

Arguments Ok {A} a.
Arguments Raise {A} e.

Definition bind {A B : Type} (m : result A) (k : A -> result B) : result B :=
  match m with
  | Ok a => k a
  | Raise e => Raise e
  end.

Notation "x <- m ;; k" := (bind m (fun x => k))
  (at level 61, m at next level, right associativity).

(** [try: body except (caught): return dflt]. *)
Definition try_except {A : Type} (body : result A) (caught : list exn)
    (dflt : A) : result A :=
  match body with
  | Ok a => Ok a
  | Raise e => if existsb (exn_eqb e) caught then Ok dflt else Raise e
  end.

Definition raises {A : Type} (m : result A) : Prop :=
  exists e, m = Raise e.

(** ** Documents *)

(** The value of an attribute in a parsed tag: a string, or for the
    multi-valued attributes ([class]) the list of its tokens. *)
Inductive attr_value : Type :=
| Str (s : string)
| Multi (tokens : list string).

(** A node of the parsed tree: a piece of text or a tag with its attribute
    dictionary and its children.  The document itself is a tag. *)
#[warnings="-register-all"]
Inductive node : Type :=
| NavigableString (s : string)
| Tag (name : string) (attrs : list (string * attr_value))
      (contents : list node).

(** [BeautifulSoup("", 'html.parser')] *)
Definition empty_soup : node := Tag "[document]" [] [].

(** [tag.descendants]: every node below the tag, in document order. *)
Fixpoint descendants (n : node) : list node :=
  match n with
  | NavigableString _ => []
  | Tag _ _ cs => flat_map (fun c => c :: descendants c) cs
  end.

(** [tag.text]: the strings below the tag, concatenated. *)
Fixpoint text (n : node) : string :=
  match n with
  | NavigableString s => s
  | Tag _ _ cs => String.concat "" (map text cs)
  end.

Fixpoint lookup (key : string) (d : list (string * attr_value))
    : option attr_value :=
  match d with
  | [] => None
  | (k, v) :: d' => if String.eqb k key then Some v else lookup key d'
  end.

Definition attrs_of (n : node) : list (string * attr_value) :=
  match n with
  | NavigableString _ => []
  | Tag _ a _ => a
  end.

(** [tag.get(key)] *)
Definition get (n : node) (key : string) : option attr_value :=
  lookup key (attrs_of n).

(** [tag[key]] *)
Definition getitem (n : node) (key : string) : result attr_value :=
  match get n key with
  | Some v => Ok v
  | None => Raise KeyError
  end.

(** What a search asks of one attribute: [True], a string, or a list of
    strings. *)
Inductive criterion : Type :=
| Present
| Equals (s : string)
| OneOf (ss : list string).

Definition is_empty (s : string) : bool :=
  match s with
  | EmptyString => true
  | _ => false
  end.

Definition string_matches (markup : option string) (c : criterion) : bool :=
  match c, markup with
  | Present, Some _ => true
  | Present, None => false
  | Equals s, None => is_empty s
  | OneOf ss, None => match ss with [] => true | _ => false end
  | Equals s, Some m => String.eqb m s
  | OneOf ss, Some m => existsb (String.eqb m) ss
  end.

(** The attribute test of a search: a multi-valued attribute matches through
    any of its tokens or through the tokens joined by spaces. *)
Definition value_matches (v : option attr_value) (c : criterion) : bool :=
  match v with
  | None => string_matches None c
  | Some (Str s) => string_matches (Some s) c
  | Some (Multi ts) =>
      existsb (fun t => string_matches (Some t) c) ts
      || string_matches (Some (String.concat " " ts)) c
  end.

Definition matches (name : string) (crit : list (string * criterion))
    (n : node) : bool :=
  match n with
  | NavigableString _ => false
  | Tag nm a _ =>
      String.eqb nm name
      && forallb (fun kc => value_matches (lookup (fst kc) a) (snd kc)) crit
  end.

(** [tag.find_all(name, attrs=crit)] *)
Definition find_all (name : string) (crit : list (string * criterion))
    (n : node) : list node :=
  filter (matches name crit) (descendants n).

(** [tag.find(name, attrs=crit)]: the first result or [None]. *)
Definition find (name : string) (crit : list (string * criterion))
    (n : node) : option node :=
  hd_error (find_all name crit n).

(** [l[i]] on a Python list. *)
Definition py_index {A : Type} (l : list A) (i : Z) : result A :=
  let len := Z.of_nat (List.length l) in
  let j := if i <? 0 then len + i else i in
  if (0 <=? j) && (j <? len) then
    match nth_error l (Z.to_nat j) with
    | Some a => Ok a
    | None => Raise IndexError
    end
  else Raise IndexError.

(** [str(n)] for an integer. *)
Definition str_of_int (n : Z) : string :=
  NilZero.string_of_int (Z.to_int n).

(** ** The environment *)

(** What the module takes from outside: the HTTP session with the parser
    behind it, and the built-in and library functions on text. *)
Class Host : Type := {
  (** [session.get(url)] with [raise_for_status()], then the parse:
      [None] stands for a [requests.RequestException]. *)
  http_get : string -> option node;
  (** [int(s)] on a string: [None] stands for [ValueError]. *)
  int_of_str : string -> option Z;
  (** whether the pattern is malformed: [re.compile(pattern)], and so
      [re.match(pattern, s)], raises [re.error] *)
  re_error : string -> bool;
  (** whether [re.match(pattern, s)] finds a match, for a pattern that
      compiles *)
  re_match : string -> string -> bool;
  (** [s.lower()] *)
  lower : string -> string;
  (** [s.strip()] *)
  strip : string -> string;
  (** [unicodedata.normalize("NFKC", s)] *)
  nfkc : string -> string;
  (** the two patterns that [get_last_votecount] writes out compile *)
  tally_pattern_compiles : re_error "^Recuento de votos$" = false;
  final_tally_pattern_compiles :
    re_error "^Recuento de votos final$" = false
}.

(** ** Loops *)

(** [for x in xs: body], where the body may [return] from the function:
    [Some b] is a return of [b], [None] the end of an iteration. *)
Fixpoint for_return {A B : Type} (xs : list A)
    (body : A -> result (option B)) : result (option B) :=
  match xs with
  | [] => Ok None
  | x :: rest =>
      r <- body x ;;
      match r with
      | Some b => Ok (Some b)
      | None => for_return rest body
      end
  end.

(** [for x in xs: body], where the body updates the state [s]. *)
Fixpoint for_each {A S : Type} (xs : list A) (body : A -> S -> result S)
    (s : S) : result S :=
  match xs with
  | [] => Ok s
  | x :: rest => s' <- body x s ;; for_each rest body s'
  end.

(** [range(n, 0, -1)] *)
Definition range_down (n : Z) : list Z :=
  map Z.of_nat (rev (seq 1 (Z.to_nat n))).

(** ** True division of integers *)

(** A finite binary float, [mant * 2 ^ expo]. *)
Record float : Type := mkfloat { mant : Z; expo : Z }.

(** The integer nearest to [n / d], ties to the even one ([0 <= n], [0 < d]). *)
Definition round_half_even (n d : Z) : Z :=
  let q := n / d in
  let r := n mod d in
  if 2 * r <? d then q
  else if d <? 2 * r then q + 1
  else if Z.even q then q else q + 1.

(** The greatest [l] with [2 ^ l <= a / b] ([0 < a], [0 < b]). *)
Definition quotient_log2 (a b : Z) : Z :=
  let d := Z.log2 a - Z.log2 b in
  if a * 2 ^ Z.max 0 (- d) <? b * 2 ^ Z.max 0 d then d - 1 else d.

(** The binary64 number nearest to [a / b] ([0 < a], [0 < b]): 53 bits of
    mantissa, and no exponent below that of the subnormal numbers. *)
Definition nearest_binary64 (a b : Z) : float :=
  let e := Z.max (quotient_log2 a b - 52) (- 1074) in
  mkfloat (round_half_even (a * 2 ^ Z.max 0 (- e)) (b * 2 ^ Z.max 0 e)) e.

(** [a / b] on two [int]s: the correctly rounded quotient. *)
Definition int_truediv (a b : Z) : result float :=
  if b =? 0 then Raise ZeroDivisionError
  else if a =? 0 then Ok (mkfloat 0 0)
  else
    let f := nearest_binary64 (Z.abs a) (Z.abs b) in
    if (0 <=? expo f) && (2 ^ 1024 <=? mant f * 2 ^ expo f)
    then Raise OverflowError
    else Ok (mkfloat (Z.sgn a * Z.sgn b * mant f) (expo f)).

(** [math.ceil(x)] on a float. *)
Definition ceil (x : float) : Z :=
  if 0 <=? expo x then mant x * 2 ^ expo x
  else - ((- mant x) / 2 ^ (- expo x)).

(** ** Game values *)

(** Modelled from the spec: the enumeration [states.stage.Stage], whose
    declaration is not in the module; the spec gives its three kinds. *)
Inductive Stage : Type :=
| Day
| Night
| End.

(** Modelled from the spec: the record [modules.game_stages.GameStage]
    (the spec's StageEvent), whose declaration is not in the module; the
    fields are those the module passes by keyword. *)
Record GameStage : Type := mkGameStage {
  gs_post_id : Z;
  game_stage : Stage;
  stage_start_time : Z
}.

(** Modelled from the spec: the record [modules.game_actions.GameAction]
    (the spec's ActionRecord), whose declaration is not in the module; the
    fields are those the module passes by keyword. *)
Record GameAction : Type := mkGameAction {
  ga_post_id : Z;
  post_time : Z;
  contents : string;
  author : string
}.

(** ** The module *)

Section ThreadReader.

Context {host : Host}.

(** [int(v)] on an attribute value. *)
Definition int (v : attr_value) : result Z :=
  match v with
  | Str s =>
      match int_of_str s with
      | Some n => Ok n
      | None => Raise ValueError
      end
  | Multi _ => Raise TypeError
  end.

(** [v.lower()] on an attribute value. *)
Definition lower_value (v : attr_value) : result string :=
  match v with
  | Str s => Ok (lower s)
  | Multi _ => Raise AttributeError
  end.

(** [o[key]] where [o] is the result of a [find]. *)
Definition subscript (o : option node) (key : string) : result attr_value :=
  match o with
  | Some tag => getitem tag key
  | None => Raise TypeError
  end.

(** [o.find_all(name)] where [o] is the result of a [find]. *)
Definition find_all_of (o : option node) (name : string)
    : result (list node) :=
  match o with
  | Some tag => Ok (find_all name [] tag)
  | None => Raise AttributeError
  end.

Definition fetch_html (url : string) : node :=
  match http_get url with
  | Some html => html
  | None => empty_soup
  end.

Definition get_total_pages (html : node) : result Z :=
  try_except
    (let panel := find "div" [("id", Equals "bottompanel")] html in
     links <- find_all_of panel "a" ;;
     link <- py_index links (-2) ;;
     int (Str (text link)))
    [AttributeError; IndexError; ValueError]
    1.

Definition post_criteria : list (string * criterion) :=
  [("data-num", Present); ("data-autor", Present)].

Definition get_posts_from_page (game_thread author : string) (page : Z)
    : list node :=
  let url := (game_thread ++ "?u=" ++ author ++ "&pagina="
              ++ str_of_int page)%string in
  let html := fetch_html url in
  find_all "div" post_criteria html.

(** The loop of [parse_stage] over the headers. *)
Definition stage_of_header (game_end_regex stage_end_regex stage_start_regex
    : string -> bool) (post_id timestamp : Z) (header : node)
    : result (option GameStage) :=
  if game_end_regex (text header) then
    Ok (Some (mkGameStage post_id End timestamp))
  else if stage_end_regex (text header) then
    Ok (Some (mkGameStage post_id Night timestamp))
  else if stage_start_regex (text header) then
    Ok (Some (mkGameStage post_id Day timestamp))
  else Ok None.

(** A compiled pattern is its [match] method. *)
Definition parse_stage (post : node) (game_end_regex stage_end_regex
    stage_start_regex : string -> bool) : result (option GameStage) :=
  let headers := find_all "h2" [] post in
  post_id <- (v <- getitem post "data-num" ;; int v) ;;
  timestamp <-
    (v <- subscript (find "span" [("data-time", Present)] post) "data-time" ;;
     int v) ;;
  for_return headers
    (stage_of_header game_end_regex stage_end_regex stage_start_regex
       post_id timestamp).

Definition default_stage : GameStage := mkGameStage 1 Night 0.

(** The three patterns are written out in the function and compile: each
    compiled pattern is its [match] method. *)
Definition get_game_phase (game_thread game_master : string)
    : result GameStage :=
  let gm_posts_html := fetch_html (game_thread ++ "?u=" ++ game_master) in
  gm_pages <- get_total_pages gm_posts_html ;;
  let game_end_regex := re_match "^Final de la partida" in
  let stage_end_regex := re_match "^Final del día [0-9]*" in
  let stage_start_regex := re_match "^Día [0-9]*" in
  r <- for_return (range_down gm_pages) (fun page =>
         let posts := get_posts_from_page game_thread game_master page in
         for_return (rev posts) (fun post =>
           parse_stage post game_end_regex stage_end_regex
             stage_start_regex)) ;;
  match r with
  | Some stage => Ok stage
  | None => Ok default_stage
  end.

Definition get_page_number_from_post (post_id : Z) : result Z :=
  x <- int_truediv post_id 30 ;;
  Ok (ceil x).

Definition get_player_list (game_thread : string) (start_day_post_id : Z)
    : result (list string) :=
  page_number <- get_page_number_from_post start_day_post_id ;;
  let html := fetch_html (game_thread ++ "/" ++ str_of_int page_number) in
  let posts := find_all "div" post_criteria html in
  r <- for_return posts (fun post =>
         v <- getitem post "data-num" ;;
         n <- int v ;;
         if n =? start_day_post_id then
           players <- find_all_of (find "ol" [] post) "a" ;;
           Ok (Some (map (fun player => strip (lower (text player)))
                       players))
         else Ok None) ;;
  match r with
  | Some players => Ok players
  | None => Ok []
  end.

(** [re.match(pattern, s)] on a pattern given as a string: the pattern is
    compiled first, which raises [re.error] when it is malformed. *)
Definition match_pattern (pattern s : string) : result bool :=
  if re_error pattern then Raise ReError else Ok (re_match pattern s).

Definition get_last_event (game_thread bot_id event_regex : string)
    : result Z :=
  let bot_posts_html := fetch_html (game_thread ++ "?u=" ++ bot_id) in
  bot_pages <- get_total_pages bot_posts_html ;;
  r <- for_return (range_down bot_pages) (fun page =>
         let posts := get_posts_from_page game_thread bot_id page in
         for_return (rev posts) (fun post =>
           let headers := find_all "h2" [] post in
           for_return headers (fun header =>
             found <- match_pattern event_regex (text header) ;;
             if found then
               v <- getitem post "data-num" ;;
               n <- int v ;;
               Ok (Some n)
             else Ok None))) ;;
  match r with
  | Some post_id => Ok post_id
  | None => Ok 1
  end.

Definition get_last_votecount (game_thread bot_id : string)
    : result (Z * bool) :=
  votecount_id <- get_last_event game_thread bot_id "^Recuento de votos$" ;;
  lynch_id <- get_last_event game_thread bot_id "^Recuento de votos final$" ;;
  Ok (votecount_id, lynch_id =? votecount_id).

Definition request_page_count (game_thread : string) : result Z :=
  let html := fetch_html game_thread in
  get_total_pages html.

Definition get_last_post (game_thread : string) : result Z :=
  last_page <- request_page_count game_thread ;;
  let html := fetch_html (game_thread ++ "/" ++ str_of_int last_page) in
  let posts := find_all "div" post_criteria html in
  match posts with
  | [] => Ok 1
  | _ => post <- py_index posts (-1) ;;
         v <- getitem post "data-num" ;;
         int v
  end.

Definition action_post_classes : list string :=
  ["cf post"; "cf post z"; "cf post first"].

(** The body of the loop of [get_actions_from_page] over the posts. *)
Definition actions_of_post (start_from_post : Z) (post : node)
    (actions : list GameAction) : result (list GameAction) :=
  post_id <- (v <- getitem post "data-num" ;; int v) ;;
  if start_from_post <? post_id then
    commands <-
      find_all_of (find "div" [("class", Equals "post-contents")] post) "h4" ;;
    for_each commands (fun command actions =>
      time <-
        (v <- subscript (find "span" [("class", Equals "rd")] post)
                "data-time" ;;
         int v) ;;
      let cmd := nfkc (lower (text command)) in
      who <- (v <- getitem post "data-autor" ;; lower_value v) ;;
      Ok (actions ++ [mkGameAction post_id time cmd who])) actions
  else Ok actions.

Definition get_actions_from_page (game_thread : string)
    (page_to_scan start_from_post : Z) : result (list GameAction) :=
  let html := fetch_html (game_thread ++ "/" ++ str_of_int page_to_scan) in
  let posts := find_all "div" [("class", OneOf action_post_classes)] html in
  for_each posts (actions_of_post start_from_post) [].

End ThreadReader.

(** ** Vocabulary of the specification *)

Section Vocabulary.

Context {host : Host}.

(** The identifier of a post, as every function of the module reads it. *)
Definition post_number (post : node) : result Z :=
  v <- getitem post "data-num" ;; int v.

(** The timestamp of a post, as [parse_stage] reads it. *)
Definition stage_time (post : node) : result Z :=
  v <- subscript (find "span" [("data-time", Present)] post) "data-time" ;;
  int v.

(** The timestamp of a post, as [get_actions_from_page] reads it. *)
Definition action_time (post : node) : result Z :=
  v <- subscript (find "span" [("class", Equals "rd")] post) "data-time" ;;
  int v.

(** The author of a post, as [get_actions_from_page] reads it. *)
Definition action_author (post : node) : result string :=
  v <- getitem post "data-autor" ;; lower_value v.

(** The link before the last one. *)
Definition second_to_last {A : Type} (l : list A) : option A :=
  nth_error (rev l) 1.

(** The page count in the words of the specification: the text of the
    second-to-last link of the navigation panel read as an integer, and 1
    when the panel is absent, has fewer than two links, or the text is no
    number. *)
Definition total_pages_by_spec (html : node) : Z :=
  match find "div" [("id", Equals "bottompanel")] html with
  | None => 1
  | Some panel =>
      let links := find_all "a" [] panel in
      if (List.length links <? 2)%nat then 1
      else
        match second_to_last links with
        | None => 1
        | Some link =>
            match int_of_str (text link) with
            | Some n => n
            | None => 1
            end
        end
  end.

(** The number of pages of an author's posts. *)
Definition page_count (game_thread author : string) : Z :=
  total_pages_by_spec (fetch_html (game_thread ++ "?u=" ++ author)).

(** The posts of an author in the order of a reverse scan: pages from the
    last to the first, and the posts of a page from the last to the first. *)
Definition reverse_scan (game_thread author : string) (pages : Z)
    : list node :=
  flat_map (fun page => rev (get_posts_from_page game_thread author page))
    (range_down pages).

(** The posts of an author in the order of the thread: pages [1] to [pages],
    and the posts of a page from the first to the last. *)
Definition authored_posts (game_thread author : string) (pages : Z)
    : list node :=
  flat_map (get_posts_from_page game_thread author)
    (map Z.of_nat (seq 1 (Z.to_nat pages))).

(** The posts of an author, in the order of the thread. *)
Definition history (game_thread author : string) : list node :=
  authored_posts game_thread author (page_count game_thread author).

(** The three patterns of [get_game_phase]. *)
Definition game_end_regex : string -> bool :=
  re_match "^Final de la partida".
Definition stage_end_regex : string -> bool :=
  re_match "^Final del día [0-9]*".
Definition stage_start_regex : string -> bool :=
  re_match "^Día [0-9]*".

(** The classification of a post by [get_game_phase]. *)
Definition classify (post : node) : result (option GameStage) :=
  parse_stage post game_end_regex stage_end_regex stage_start_regex.

Definition classifies (post : node) : bool :=
  match classify post with
  | Ok (Some _) => true
  | _ => false
  end.

(** The stage events of the posts that classify, in the order of the
    posts. *)
Fixpoint stage_events (posts : list node) : list GameStage :=
  match posts with
  | [] => []
  | post :: rest =>
      match classify post with
      | Ok (Some stage) => stage :: stage_events rest
      | _ => stage_events rest
      end
  end.

Definition is_ok {A : Type} (m : result A) : bool :=
  match m with
  | Ok _ => true
  | Raise _ => false
  end.

(** The identifiers of a list of posts. *)
Fixpoint post_numbers (posts : list node) : result (list Z) :=
  match posts with
  | [] => Ok []
  | post :: rest =>
      n <- post_number post ;;
      ns <- post_numbers rest ;;
      Ok (n :: ns)
  end.

Fixpoint increasing (l : list Z) : bool :=
  match l with
  | [] => true
  | a :: rest =>
      match rest with
      | [] => true
      | b :: _ => (a <? b) && increasing rest
      end
  end.

(** The (header, pattern) pairs of a post in the order of the
    specification: the headers in document order and, for each header, the
    patterns in the order end of game, end of stage, start of stage. *)
Definition header_pattern_pairs (ge se ss : string -> bool)
    (headers : list node) : list (node * (Stage * (string -> bool))) :=
  list_prod headers [(End, ge); (Night, se); (Day, ss)].

(** The stage of the first pair whose pattern matches its header. *)
Definition first_matching_pair (ge se ss : string -> bool)
    (headers : list node) : option Stage :=
  option_map (fun hp => fst (snd hp))
    (List.find (fun hp => snd (snd hp) (text (fst hp)))
       (header_pattern_pairs ge se ss headers)).

Definition no_pattern_matches (ge se ss : string -> bool) (header : node)
    : bool :=
  negb (ge (text header)) && negb (se (text header))
  && negb (ss (text header)).

(** Whether a header of the post matches the pattern. *)
Definition has_matching_header (event_regex : string) (post : node) : bool :=
  existsb (fun header => re_match event_regex (text header))
    (find_all "h2" [] post).

(** What the loop of [get_last_event] over the headers of a post gives. *)
Definition event_of_post (event_regex : string) (post : node)
    : result (option Z) :=
  for_return (find_all "h2" [] post) (fun header =>
    found <- match_pattern event_regex (text header) ;;
    if found then
      v <- getitem post "data-num" ;;
      n <- int v ;;
      Ok (Some n)
    else Ok None).

(** The posts [get_actions_from_page] looks at. *)
Definition action_posts (game_thread : string) (page_to_scan : Z)
    : list node :=
  find_all "div" [("class", OneOf action_post_classes)]
    (fetch_html (game_thread ++ "/" ++ str_of_int page_to_scan)).

(** The command headers of a post. *)
Definition command_headers (post : node) : result (list node) :=
  find_all_of (find "div" [("class", Equals "post-contents")] post) "h4".

(** The record of one command of a post. *)
Definition record_of (pid ts : Z) (who : string) (command : node)
    : GameAction :=
  mkGameAction pid ts (nfkc (lower (text command))) who.

(** The results of [f] on the elements of a list, one after the other. *)
Fixpoint gather {A B : Type} (f : A -> result (list B)) (l : list A)
    : result (list B) :=
  match l with
  | [] => Ok []
  | x :: rest =>
      bs <- f x ;;
      cs <- gather f rest ;;
      Ok (bs ++ cs)
  end.

(** [ceil(p / d)] in exact arithmetic. *)
Definition exact_ceil (p d : Z) : Z := - ((- p) / d).

End Vocabulary.

(** ** A sample forum *)

Module Sample.

(** [int(s)] on the strings of the samples: decimal digits after an optional
    minus sign convert, and text that is no number does not. *)
Definition digit_of (c : ascii) : option Z :=
  let n := Z.of_nat (nat_of_ascii c) in
  if (48 <=? n) && (n <=? 57) then Some (n - 48) else None.

Fixpoint digits (s : string) (acc : Z) : option Z :=
  match s with
  | EmptyString => Some acc
  | String c rest =>
      match digit_of c with
      | Some d => digits rest (10 * acc + d)
      | None => None
      end
  end.

Definition unsigned (s : string) : option Z :=
  match s with
  | EmptyString => None
  | _ => digits s 0
  end.

Definition sample_int (s : string) : option Z :=
  match s with
  | String "-"%char rest => option_map Z.opp (unsigned rest)
  | _ => unsigned s
  end.

(** [re.match] on the patterns of the module: each of the three stage
    patterns matches the strings that start with its literal part (its
    [[0-9]*] also matches no digit), and a tally pattern the whole string. *)
Definition sample_match (pattern s : string) : bool :=
  if String.eqb pattern "^Final de la partida" then
    String.prefix "Final de la partida" s
  else if String.eqb pattern "^Final del día [0-9]*" then
    String.prefix "Final del día " s
  else if String.eqb pattern "^Día [0-9]*" then
    String.prefix "Día " s
  else if String.eqb pattern "^Recuento de votos$" then
    String.eqb s "Recuento de votos"
  else if String.eqb pattern "^Recuento de votos final$" then
    String.eqb s "Recuento de votos final"
  else false.

(** [re.compile] on the patterns of the samples: the lone opening
    parenthesis is the malformed one. *)
Definition sample_error (pattern : string) : bool := String.eqb pattern "(".

(** [str.lower] on ASCII text. *)
Definition lower_char (c : ascii) : ascii :=
  let n := nat_of_ascii c in
  if (Nat.leb 65 n && Nat.leb n 90)%bool then ascii_of_nat (n + 32) else c.

Fixpoint sample_lower (s : string) : string :=
  match s with
  | EmptyString => EmptyString
  | String c rest => String (lower_char c) (sample_lower rest)
  end.

(** [str.strip] on text whose only blanks are spaces. *)
Fixpoint lstrip (s : string) : string :=
  match s with
  | String " "%char rest => lstrip rest
  | _ => s
  end.

Fixpoint reverse (s acc : string) : string :=
  match s with
  | EmptyString => acc
  | String c rest => reverse rest (String c acc)
  end.

Definition sample_strip (s : string) : string :=
  reverse (lstrip (reverse (lstrip s) "")) "".

Definition heading (level title : string) : node :=
  Tag level [] [NavigableString title].

(** A post as the forum renders it. *)
Definition forum_post (num autor time : string) (body : list node) : node :=
  Tag "div"
    [("class", Multi ["cf"; "post"]); ("data-num", Str num);
     ("data-autor", Str autor)]
    [Tag "span" [("class", Multi ["rd"]); ("data-time", Str time)] [];
     Tag "div" [("class", Multi ["post-contents"])] body].

(** A post without its time stamp and without its contents. *)
Definition bare_post (num autor : string) (body : list node) : node :=
  Tag "div"
    [("class", Multi ["cf"; "post"]); ("data-num", Str num);
     ("data-autor", Str autor)]
    body.

Definition bottompanel (labels : list string) : node :=
  Tag "div" [("id", Str "bottompanel")]
    (map (fun l => Tag "a" [("href", Str "#")] [NavigableString l]) labels).

Definition document (body : list node) : node := Tag "[document]" [] body.

Definition day_post : node :=
  forum_post "5" "gm" "1700000000" [heading "h2" "Día 1"].
Definition night_post : node :=
  forum_post "12" "gm" "1700050000" [heading "h2" "Final del día 1"].
Definition chat_post : node :=
  forum_post "40" "gm" "1700060000" [NavigableString "Suerte a todos"].
Definition roster_post : node :=
  forum_post "1" "gm" "1699990000"
    [Tag "ol" []
       [Tag "li" [] [Tag "a" [] [NavigableString " Ana "]];
        Tag "li" [] [Tag "a" [] [NavigableString "BRUNO"]]]].
Definition tally_post : node :=
  forum_post "9" "bot" "1700010000" [heading "h2" "Recuento de votos"].
Definition final_tally_post : node :=
  forum_post "11" "bot" "1700040000" [heading "h2" "Recuento de votos final"].
Definition vote_post : node :=
  forum_post "7" "Ana" "1700005000"
    [heading "h4" "Voto a Bruno"; NavigableString "porque si";
     heading "h4" "Desvoto"; heading "h4" "Voto a Carla"].
Definition late_vote_post : node :=
  forum_post "8" "Bruno" "1700006000" [heading "h4" "Voto a Ana"].

(** A post whose header the end-of-game and the start-of-stage pattern of
    [loose_patterns] both match. *)
Definition ending_post : node :=
  forum_post "3" "gm" "100" [heading "h2" "Final de la partida"].

(** Three patterns that overlap: the compiled forms of
    [^Final de la partida], [^Final del] and [^Fin]. *)
Definition ends_game : string -> bool := String.prefix "Final de la partida".
Definition ends_stage : string -> bool := String.prefix "Final del".
Definition starts_stage : string -> bool := String.prefix "Fin".

(** The pages of the sample forum, by address.  Thread [t] is well formed;
    thread [u] has a post of the game master that lost its time stamp and
    its contents. *)
Definition pages : list (string * node) :=
  [("t?u=gm", document [day_post; bottompanel ["1"; "2"; "Siguiente"]]);
   ("t?u=gm&pagina=1", document [day_post; night_post]);
   ("t?u=gm&pagina=2", document [chat_post]);
   ("t?u=bot", document [tally_post; final_tally_post]);
   ("t?u=bot&pagina=1", document [tally_post; final_tally_post]);
   ("t/1",
    document [roster_post; day_post; vote_post; late_vote_post; tally_post;
              final_tally_post; night_post]);
   ("u?u=gm", document [bare_post "3" "gm" [heading "h2" "Día 1"]]);
   ("u?u=gm&pagina=1", document [bare_post "3" "gm" [heading "h2" "Día 1"]]);
   ("u/1", document [bare_post "3" "gm" [heading "h2" "Día 1"]])].

Fixpoint page_at (url : string) (l : list (string * node)) : option node :=
  match l with
  | [] => None
  | (u, d) :: rest => if String.eqb u url then Some d else page_at url rest
  end.

(** An address the forum does not serve is a failed request. *)
#[export] Instance forum : Host := {
  http_get url := page_at url pages;
  int_of_str := sample_int;
  re_error := sample_error;
  re_match := sample_match;
  lower := sample_lower;
  strip := sample_strip;
  nfkc s := s;
  tally_pattern_compiles := eq_refl;
  final_tally_pattern_compiles := eq_refl
}.

End Sample.

(** ** Two more forums *)

Module Outage.

(** A forum that cannot be reached: every request fails. *)
Definition offline : Host := {|
  http_get := fun _ => None;
  int_of_str := Sample.sample_int;
  re_error := Sample.sample_error;
  re_match := Sample.sample_match;
  lower := Sample.sample_lower;
  strip := Sample.sample_strip;
  nfkc := fun s => s;
  tally_pattern_compiles := eq_refl;
  final_tally_pattern_compiles := eq_refl
|}.

(** A forum whose navigation panel announces no page at all, although its
    first page of posts holds a stage announcement and a tally. *)
Definition stale_pages : list (string * node) :=
  [("z?u=gm", Sample.document [Sample.bottompanel ["0"; "Siguiente"]]);
   ("z?u=gm&pagina=1",
    Sample.document [Sample.night_post; Sample.tally_post])].

Definition stale : Host := {|
  http_get := fun url => Sample.page_at url stale_pages;
  int_of_str := Sample.sample_int;
  re_error := Sample.sample_error;
  re_match := Sample.sample_match;
  lower := Sample.sample_lower;
  strip := Sample.sample_strip;
  nfkc := fun s => s;
  tally_pattern_compiles := eq_refl;
  final_tally_pattern_compiles := eq_refl
|}.

(** A post with some text, no command header, no time stamp and no
    author. *)
Definition quiet_post : node :=
  Tag "div" [("class", Multi ["cf"; "post"]); ("data-num", Str "4")]
    [Tag "div" [("class", Multi ["post-contents"])]
       [NavigableString "Buenas noches"]].

(** A forum whose bot closes the day in the post of its last tally. *)
Definition closing_pages : list (string * node) :=
  [("c?u=bot&pagina=1",
    Sample.document
      [Sample.tally_post;
       Sample.forum_post "15" "bot" "1700045000"
         [Sample.heading "h2" "Recuento de votos";
          Sample.heading "h2" "Recuento de votos final"]])].

Definition closing : Host := {|
  http_get := fun url => Sample.page_at url closing_pages;
  int_of_str := Sample.sample_int;
  re_error := Sample.sample_error;
  re_match := Sample.sample_match;
  lower := Sample.sample_lower;
  strip := Sample.sample_strip;
  nfkc := fun s => s;
  tally_pattern_compiles := eq_refl;
  final_tally_pattern_compiles := eq_refl
|}.

(** A forum whose bot has two pages of posts, with tallies on both. *)
Definition late_tally_post : node :=
  Sample.forum_post "31" "bot" "1700100000"
    [Sample.heading "h2" "Recuento de votos"].
Definition count_post : node :=
  Sample.forum_post "33" "bot" "1700110000"
    [NavigableString "Quedan cinco jugadores"].

Definition paged_pages : list (string * node) :=
  [("p?u=bot",
    Sample.document
      [Sample.tally_post; Sample.bottompanel ["1"; "2"; "Siguiente"]]);
   ("p?u=bot&pagina=1",
    Sample.document [Sample.tally_post; Sample.final_tally_post]);
   ("p?u=bot&pagina=2", Sample.document [late_tally_post; count_post])].

Definition paged : Host := {|
  http_get := fun url => Sample.page_at url paged_pages;
  int_of_str := Sample.sample_int;
  re_error := Sample.sample_error;
  re_match := Sample.sample_match;
  lower := Sample.sample_lower;
  strip := Sample.sample_strip;
  nfkc := fun s => s;
  tally_pattern_compiles := eq_refl;
  final_tally_pattern_compiles := eq_refl
|}.

(** A forum where post 20 of the game master quotes the announcement of
    its post 12, markup included. *)
Definition quoted_post : node :=
  Tag "div" [("data-num", Str "12"); ("data-autor", Str "gm")]
    [Tag "span" [("data-time", Str "120")] [];
     Sample.heading "h2" "Día 1"].
Definition quoting_post : node :=
  Sample.forum_post "20" "gm" "200"
    [NavigableString "Como ya se anunció:"; quoted_post].

Definition quoting_pages : list (string * node) :=
  [("n?u=gm&pagina=1", Sample.document [quoting_post])].

Definition quoting : Host := {|
  http_get := fun url => Sample.page_at url quoting_pages;
  int_of_str := Sample.sample_int;
  re_error := Sample.sample_error;
  re_match := Sample.sample_match;
  lower := Sample.sample_lower;
  strip := Sample.sample_strip;
  nfkc := fun s => s;
  tally_pattern_compiles := eq_refl;
  final_tally_pattern_compiles := eq_refl
|}.

(** A forum where an early post of the game master lost its time stamp. *)
Definition early_pages : list (string * node) :=
  [("e?u=gm&pagina=1",
    Sample.document
      [Sample.bare_post "3" "gm" [Sample.heading "h2" "Día 0"];
       Sample.day_post; Sample.night_post; Sample.chat_post])].

Definition early : Host := {|
  http_get := fun url => Sample.page_at url early_pages;
  int_of_str := Sample.sample_int;
  re_error := Sample.sample_error;
  re_match := Sample.sample_match;
  lower := Sample.sample_lower;
  strip := Sample.sample_strip;
  nfkc := fun s => s;
  tally_pattern_compiles := eq_refl;
  final_tally_pattern_compiles := eq_refl
|}.

(** A forum where the only post of the game master has no header and no
    time stamp. *)
Definition welcome_post : node :=
  Sample.bare_post "3" "gm" [NavigableString "Bienvenidos"].

Definition silent_pages : list (string * node) :=
  [("s?u=gm&pagina=1", Sample.document [welcome_post])].

Definition silent : Host := {|
  http_get := fun url => Sample.page_at url silent_pages;
  int_of_str := Sample.sample_int;
  re_error := Sample.sample_error;
  re_match := Sample.sample_match;
  lower := Sample.sample_lower;
  strip := Sample.sample_strip;
  nfkc := fun s => s;
  tally_pattern_compiles := eq_refl;
  final_tally_pattern_compiles := eq_refl
|}.

(** A forum that renders the number of a tally post badly. *)
Definition garbled_pages : list (string * node) :=
  [("g?u=bot&pagina=1",
    Sample.document
      [Sample.forum_post "#9" "bot" "1700010000"
         [Sample.heading "h2" "Recuento de votos"]]);
   ("g/1",
    Sample.document
      [Sample.forum_post "#9" "bot" "1700010000"
         [Sample.heading "h2" "Recuento de votos"]])].

Definition garbled : Host := {|
  http_get := fun url => Sample.page_at url garbled_pages;
  int_of_str := Sample.sample_int;
  re_error := Sample.sample_error;
  re_match := Sample.sample_match;
  lower := Sample.sample_lower;
  strip := Sample.sample_strip;
  nfkc := fun s => s;
  tally_pattern_compiles := eq_refl;
  final_tally_pattern_compiles := eq_refl
|}.

End Outage.

(** The posts of a page of the thread, as [get_player_list] and
    [get_last_post] read them. *)
Definition page_posts {host : Host} (game_thread : string) (page : Z)
    : list node :=
  find_all "div" post_criteria
    (fetch_html (game_thread ++ "/" ++ str_of_int page)).

(** Eight times the float nearest to [a / 30]: an integer when [a] is past
    [30 * 2 ^ 49], where the floats are the multiples of [1 / 8] or
    coarser. *)
Definition scaled_quotient (a : Z) : Z :=
  let l := quotient_log2 a 30 in
  let e := l - 52 in
  round_half_even (a * 2 ^ Z.max 0 (- e)) (30 * 2 ^ Z.max 0 e)
  * 2 ^ (l - 49).

(** * Properties *)

(** ** Loops *)

Section LoopFacts.

Context {A B : Type}.

Lemma for_return_ext (l : list A) (f g : A -> result (option B)) :
  (forall x, f x = g x) -> for_return l f = for_return l g.
Proof.
  intros H. induction l as [|x l IH]; cbn; [reflexivity|].
  rewrite H, IH. reflexivity.
Qed.

Lemma for_return_app (l1 l2 : list A) (body : A -> result (option B)) :
  for_return (l1 ++ l2) body =
  match for_return l1 body with
  | Ok None => for_return l2 body
  | r => r
  end.
Proof.
  induction l1 as [|x l1 IH]; cbn; [reflexivity|].
  destruct (body x) as [[b|]|e]; cbn; auto.
Qed.

(** Two nested loops that return are one loop over the concatenation. *)
Lemma for_return_flat_map {C : Type} (f : C -> list A) (l : list C)
    (body : A -> result (option B)) :
  for_return l (fun c => for_return (f c) body) =
  for_return (flat_map f l) body.
Proof.
  induction l as [|c l IH]; cbn; [reflexivity|].
  rewrite for_return_app.
  destruct (for_return (f c) body) as [[b|]|e]; cbn; auto.
Qed.

Lemma for_return_none (l : list A) (body : A -> result (option B)) :
  Forall (fun x => body x = Ok None) l -> for_return l body = Ok None.
Proof.
  induction 1 as [|x l Hx _ IH]; cbn; [reflexivity|].
  rewrite Hx; cbn; exact IH.
Qed.

Lemma for_return_first (l1 l2 : list A) (x : A) (b : B)
    (body : A -> result (option B)) :
  Forall (fun y => body y = Ok None) l1 ->
  body x = Ok (Some b) ->
  for_return (l1 ++ x :: l2) body = Ok (Some b).
Proof.
  intros H1 Hx. rewrite for_return_app, (for_return_none _ _ H1).
  cbn. rewrite Hx. reflexivity.
Qed.

(** A loop whose body never raises ends without a return, every iteration
    having declined, or returns at the first element that does not. *)
Lemma for_return_cases (l : list A) (body : A -> result (option B)) :
  Forall (fun x => is_ok (body x) = true) l ->
  Forall (fun x => body x = Ok None) l
  \/ exists l1 x l2 b,
       l = l1 ++ x :: l2
       /\ Forall (fun y => body y = Ok None) l1
       /\ body x = Ok (Some b).
Proof.
  induction 1 as [|x l Hx _ IH].
  - left; constructor.
  - destruct (body x) as [[b|]|e] eqn:E; cbn in Hx; try discriminate.
    + right. exists [], x, l, b. repeat split; auto.
    + destruct IH as [IH|(l1 & y & l2 & b & -> & H1 & Hy)].
      * left; constructor; assumption.
      * right. exists (x :: l1), y, l2, b. repeat split; auto.
Qed.

(** A loop that returns at the first element a test selects is a search. *)
Lemma for_return_find (test : A -> bool) (g : A -> result B) (l : list A) :
  for_return l (fun x => if test x then b <- g x ;; Ok (Some b) else Ok None) =
  match List.find test l with
  | Some x => b <- g x ;; Ok (Some b)
  | None => Ok None
  end.
Proof.
  induction l as [|x l IH]; cbn; [reflexivity|].
  destruct (test x); cbn.
  - destruct (g x); reflexivity.
  - exact IH.
Qed.

End LoopFacts.

(** ** Pagination *)

Section Pagination.

Context {host : Host}.

Lemma py_index_second_to_last {A : Type} (l : list A) :
  py_index l (-2) =
  match second_to_last l with
  | Some a => Ok a
  | None => Raise IndexError
  end.
Proof.
  unfold second_to_last, py_index.
  destruct (rev l) as [|a [|b r]] eqn:E;
    apply (f_equal (@rev A)) in E; rewrite rev_involutive in E; subst l;
    try reflexivity.
  cbn [rev nth_error].
  rewrite !length_app, length_rev. cbn [List.length].
  replace (-2 <? 0) with true by reflexivity.
  replace (Z.of_nat (List.length r + 1 + 1) + -2)
    with (Z.of_nat (List.length r)) by lia.
  replace (0 <=? Z.of_nat (List.length r)) with true
    by (symmetry; apply Z.leb_le; lia).
  replace (Z.of_nat (List.length r) <? Z.of_nat (List.length r + 1 + 1))
    with true by (symmetry; apply Z.ltb_lt; lia).
  cbn [andb]. rewrite Nat2Z.id, <- app_assoc.
  rewrite nth_error_app2 by (rewrite length_rev; lia).
  rewrite length_rev, Nat.sub_diag. reflexivity.
Qed.

Lemma second_to_last_short {A : Type} (l : list A) :
  (List.length l < 2)%nat -> second_to_last l = None.
Proof.
  intros H. unfold second_to_last. apply nth_error_None.
  rewrite length_rev. lia.
Qed.

(** [get_total_pages] returns, and returns the page count of the
    specification. *)
Lemma get_total_pages_total (html : node) :
  get_total_pages html = Ok (total_pages_by_spec html).
Proof.
  unfold get_total_pages, total_pages_by_spec.
  destruct (find "div" _ html) as [panel|]; [|reflexivity].
  cbn [find_all_of bind]. rewrite py_index_second_to_last.
  destruct (Nat.ltb_spec (List.length (find_all "a" [] panel)) 2) as [H|H].
  - rewrite (second_to_last_short _ H). reflexivity.
  - destruct (second_to_last _) as [link|]; [|reflexivity].
    cbn [bind int]. destruct (int_of_str (text link)); reflexivity.
Qed.

(** C8: [get_total_pages] never raises; it returns the text of the
    second-to-last link of the navigation panel read as an integer, and 1
    when the panel is absent, when it has fewer than two links and when the
    text of that link is not a number. *)
Theorem get_total_pages_spec (html : node) :
  get_total_pages html = Ok (total_pages_by_spec html)
  /\ ~ raises (get_total_pages html).
Proof.
  split; [apply get_total_pages_total|].
  intros [e He]. rewrite get_total_pages_total in He. discriminate.
Qed.

End Pagination.

(** ** Stage classification *)

Section Classification.

Context {host : Host}.

Variables ge se ss : string -> bool.

(** The loop over the headers finds the first matching pair. *)
Lemma stage_loop_first_pair (pid ts : Z) (headers : list node) :
  for_return headers (stage_of_header ge se ss pid ts) =
  Ok (option_map (fun kind => mkGameStage pid kind ts)
        (first_matching_pair ge se ss headers)).
Proof.
  unfold first_matching_pair, header_pattern_pairs.
  induction headers as [|h hs IH]; [reflexivity|].
  cbn [for_return list_prod map app List.find fst snd].
  unfold stage_of_header at 1.
  destruct (ge (text h)); [reflexivity|].
  destruct (se (text h)); [reflexivity|].
  destruct (ss (text h)); [reflexivity|].
  cbn [bind]. exact IH.
Qed.

Lemma parse_stage_unfold (post : node) :
  parse_stage post ge se ss =
  (pid <- post_number post ;;
   ts <- stage_time post ;;
   for_return (find_all "h2" [] post) (stage_of_header ge se ss pid ts)).
Proof. reflexivity. Qed.

Lemma first_pair_none (headers : list node) :
  forallb (no_pattern_matches ge se ss) headers = true ->
  first_matching_pair ge se ss headers = None.
Proof.
  unfold first_matching_pair, header_pattern_pairs, no_pattern_matches.
  induction headers as [|h hs IH]; [reflexivity|].
  cbn [forallb list_prod map app List.find fst snd].
  destruct (ge (text h)), (se (text h)), (ss (text h)); cbn;
    try discriminate.
  exact IH.
Qed.

Lemma first_pair_end (before after : list node) (header : node) :
  forallb (no_pattern_matches ge se ss) before = true ->
  ge (text header) = true ->
  first_matching_pair ge se ss (before ++ header :: after) = Some End.
Proof.
  unfold first_matching_pair, header_pattern_pairs, no_pattern_matches.
  intros Hb Hh.
  induction before as [|h hs IH].
  - cbn [app list_prod map List.find fst snd]. rewrite Hh. reflexivity.
  - cbn [forallb] in Hb. apply andb_prop in Hb. destruct Hb as [H1 H2].
    cbn [app list_prod map List.find fst snd].
    destruct (ge (text h)), (se (text h)), (ss (text h)); cbn in H1;
      try discriminate.
    exact (IH H2).
Qed.

(** A stage event carries the identifier of the post it was read from. *)
Lemma parse_stage_post_id (post : node) (stage : GameStage) :
  parse_stage post ge se ss = Ok (Some stage) ->
  post_number post = Ok (gs_post_id stage).
Proof.
  rewrite parse_stage_unfold.
  destruct (post_number post) as [pid|e]; cbn [bind]; [|discriminate].
  destruct (stage_time post) as [ts|e]; cbn [bind]; [|discriminate].
  rewrite stage_loop_first_pair.
  destruct (first_matching_pair ge se ss _); cbn; [|discriminate].
  intros H. injection H as <-. reflexivity.
Qed.

(** A post without a span that carries a time stamp cannot be classified:
    the subscript on the missing span raises. *)
Lemma parse_stage_without_span (post : node) (pid : Z) :
  post_number post = Ok pid ->
  find "span" [("data-time", Present)] post = None ->
  parse_stage post ge se ss = Raise TypeError.
Proof.
  intros Hid Hspan. rewrite parse_stage_unfold, Hid. cbn [bind].
  unfold stage_time. rewrite Hspan. reflexivity.
Qed.

(** X18: on a post whose identifier and time stamp can be read,
    [parse_stage] returns the stage event of the first (header, pattern)
    pair that matches, the headers taken in document order and for each
    header the patterns in the order end of game, end of stage, start of
    stage.  So when the first header that matches anything matches the
    end-of-game pattern the post is an End, whether or not the
    start-of-stage pattern matches that header too; and a post none of whose
    headers matches gives no stage event. *)
Theorem parse_stage_precedence (post : node) (pid ts : Z) :
  post_number post = Ok pid ->
  stage_time post = Ok ts ->
  parse_stage post ge se ss =
    Ok (option_map (fun kind => mkGameStage pid kind ts)
          (first_matching_pair ge se ss (find_all "h2" [] post)))
  /\ (forall before header after,
        find_all "h2" [] post = before ++ header :: after ->
        forallb (no_pattern_matches ge se ss) before = true ->
        ge (text header) = true ->
        parse_stage post ge se ss = Ok (Some (mkGameStage pid End ts)))
  /\ (forallb (no_pattern_matches ge se ss) (find_all "h2" [] post) = true ->
      parse_stage post ge se ss = Ok None).
Proof.
  intros Hid Hts.
  assert (E : parse_stage post ge se ss =
              Ok (option_map (fun kind => mkGameStage pid kind ts)
                    (first_matching_pair ge se ss (find_all "h2" [] post)))).
  { rewrite parse_stage_unfold, Hid, Hts. cbn [bind].
    apply stage_loop_first_pair. }
  split; [exact E|]. split.
  - intros before header after Hh Hb Hg.
    rewrite E, Hh, (first_pair_end _ _ _ Hb Hg). reflexivity.
  - intros Hn. rewrite E, (first_pair_none _ Hn). reflexivity.
Qed.

End Classification.

(** ** The reverse scan *)

Section Scanning.

Context {host : Host}.

Lemma flat_map_rev {A B : Type} (f : A -> list B) (l : list A) :
  flat_map (fun x => rev (f x)) (rev l) = rev (flat_map f l).
Proof.
  induction l as [|x l IH]; cbn; [reflexivity|].
  rewrite flat_map_app, IH, rev_app_distr. cbn.
  rewrite app_nil_r. reflexivity.
Qed.

(** The reverse scan visits the author's posts from the last to the first. *)
Lemma reverse_scan_rev (game_thread author : string) (pages : Z) :
  reverse_scan game_thread author pages =
  rev (authored_posts game_thread author pages).
Proof.
  unfold reverse_scan, authored_posts, range_down.
  rewrite map_rev. apply flat_map_rev.
Qed.

(** The loops of [get_game_phase] are one loop over the reverse scan. *)
Lemma get_game_phase_scan (game_thread game_master : string) :
  get_game_phase game_thread game_master =
  (r <- for_return
          (reverse_scan game_thread game_master
             (page_count game_thread game_master)) classify ;;
   match r with
   | Some stage => Ok stage
   | None => Ok default_stage
   end).
Proof.
  unfold get_game_phase. rewrite get_total_pages_total. cbn [bind].
  rewrite for_return_flat_map. reflexivity.
Qed.

Lemma increasing_head (i : Z) (l : list Z) :
  increasing (i :: l) = true -> Forall (fun j => i < j) l.
Proof.
  revert i. induction l as [|b l IH]; intros i H; [constructor|].
  cbn [increasing] in H. apply andb_prop in H. destruct H as [Hib Hl].
  apply Z.ltb_lt in Hib. constructor; [exact Hib|].
  eapply Forall_impl; [|exact (IH b Hl)]. cbn; intros; lia.
Qed.

Lemma increasing_tail (i : Z) (l : list Z) :
  increasing (i :: l) = true -> increasing l = true.
Proof.
  destruct l as [|b l]; [reflexivity|].
  cbn [increasing]. intros H. apply andb_prop in H. apply H.
Qed.

(** In an increasing list every element is below the ones after it. *)
Lemma increasing_before (a b : list Z) (j : Z) :
  increasing (a ++ j :: b) = true -> Forall (fun i => i < j) a.
Proof.
  induction a as [|i a IH]; intros H; [constructor|].
  cbn [app] in H. constructor.
  - apply increasing_head in H. rewrite Forall_forall in H.
    apply H, in_or_app. right; left; reflexivity.
  - apply IH. exact (increasing_tail _ _ H).
Qed.

Lemma post_numbers_app (a b : list node) (ids : list Z) :
  post_numbers (a ++ b) = Ok ids ->
  exists ia ib,
    ids = ia ++ ib /\ post_numbers a = Ok ia /\ post_numbers b = Ok ib.
Proof.
  revert ids. induction a as [|p a IH]; intros ids H.
  - exists [], ids. auto.
  - cbn [app post_numbers] in *.
    destruct (post_number p) as [n|e]; cbn [bind] in *; [|discriminate].
    destruct (post_numbers (a ++ b)) as [ns|e]; cbn [bind] in *;
      [|discriminate].
    injection H as <-.
    destruct (IH ns eq_refl) as (ia & ib & -> & Ha & Hb).
    exists (n :: ia), ib. rewrite Ha. auto.
Qed.

Lemma post_numbers_in (a : list node) (ia : list Z) (q : node) :
  post_numbers a = Ok ia -> In q a ->
  exists i, In i ia /\ post_number q = Ok i.
Proof.
  revert ia. induction a as [|p a IH]; intros ia H Hq; [destruct Hq|].
  cbn [post_numbers] in H.
  destruct (post_number p) as [n|e] eqn:En; cbn [bind] in H; [|discriminate].
  destruct (post_numbers a) as [ns|e]; cbn [bind] in H; [|discriminate].
  injection H as <-.
  destruct Hq as [<-|Hq].
  - exists n. split; [left; reflexivity|exact En].
  - destruct (IH ns eq_refl Hq) as (i & Hi & E).
    exists i. split; [right; exact Hi|exact E].
Qed.

(** In a history with increasing identifiers, a post that comes before
    another has the lesser identifier. *)
Lemma earlier_post_lesser (a b : list node) (x q : node) (ids : list Z)
    (i j : Z) :
  post_numbers (a ++ x :: b) = Ok ids ->
  increasing ids = true ->
  In q a -> post_number q = Ok i -> post_number x = Ok j -> i < j.
Proof.
  intros Hn Hinc Hq Hi Hj.
  destruct (post_numbers_app _ _ _ Hn) as (ia & ib & -> & Ha & Hb).
  cbn [post_numbers] in Hb. rewrite Hj in Hb. cbn [bind] in Hb.
  destruct (post_numbers b) as [nb|e]; cbn [bind] in Hb; [|discriminate].
  injection Hb as <-.
  destruct (post_numbers_in _ _ _ Ha Hq) as (i' & Hi' & E).
  rewrite Hi in E. injection E as <-.
  apply increasing_before in Hinc. rewrite Forall_forall in Hinc.
  exact (Hinc i Hi').
Qed.

(** The phase query on a history in which every post can be classified:
    the default when no post classifies, and otherwise the stage event of
    the last post of the history that classifies. *)
Lemma get_game_phase_cases (game_thread game_master : string) :
  Forall (fun post => is_ok (classify post) = true)
    (history game_thread game_master) ->
  (Forall (fun post => classify post = Ok None)
     (history game_thread game_master)
   /\ get_game_phase game_thread game_master = Ok default_stage)
  \/ exists before post after stage,
       history game_thread game_master = before ++ post :: after
       /\ Forall (fun later => classify later = Ok None) after
       /\ classify post = Ok (Some stage)
       /\ get_game_phase game_thread game_master = Ok stage.
Proof.
  intros Hok.
  rewrite get_game_phase_scan, reverse_scan_rev.
  fold (history game_thread game_master).
  set (h := history game_thread game_master) in *.
  assert (Hrev : Forall (fun post => is_ok (classify post) = true)
                   (rev h)).
  { apply Forall_forall. intros q Hq. rewrite Forall_forall in Hok.
    apply Hok, in_rev, Hq. }
  destruct (for_return_cases _ _ Hrev)
    as [Hnone|(l1 & x & l2 & stage & E & H1 & Hx)].
  - left. split.
    + apply Forall_forall. intros q Hq. rewrite Forall_forall in Hnone.
      apply Hnone. rewrite <- in_rev. exact Hq.
    + rewrite (for_return_none _ _ Hnone). reflexivity.
  - right. exists (rev l2), x, (rev l1), stage. repeat split.
    + rewrite <- (rev_involutive h), E, rev_app_distr. cbn [rev].
      rewrite <- app_assoc. reflexivity.
    + apply Forall_forall. intros q Hq. rewrite Forall_forall in H1.
      apply H1, in_rev, Hq.
    + exact Hx.
    + rewrite E, (for_return_first _ _ _ _ _ H1 Hx). reflexivity.
Qed.

Lemma stage_events_app (a b : list node) :
  stage_events (a ++ b) = stage_events a ++ stage_events b.
Proof.
  induction a as [|p a IH]; cbn [app stage_events]; [reflexivity|].
  destruct (classify p) as [[stage|]|e]; cbn [app]; rewrite IH; reflexivity.
Qed.

Lemma stage_events_in (posts : list node) (post : node)
    (stage : GameStage) :
  In post posts -> classify post = Ok (Some stage) ->
  In stage (stage_events posts).
Proof.
  induction posts as [|p posts IH]; intros Hin Hc; [destruct Hin|].
  cbn [stage_events]. destruct Hin as [->|Hin].
  - rewrite Hc. left; reflexivity.
  - destruct (classify p) as [[s|]|e]; [right| |]; exact (IH Hin Hc).
Qed.

Lemma stage_events_none (posts : list node) :
  Forall (fun post => classify post = Ok None) posts ->
  stage_events posts = [].
Proof.
  induction 1 as [|p posts Hp _ IH]; cbn [stage_events]; [reflexivity|].
  rewrite Hp. exact IH.
Qed.

(** C1: [get_game_phase] scans the pages of the game master's posts from
    the last to the first and the posts of a page from the last to the
    first, and returns the stage event of the first post that classifies:
    the last post of the history that classifies, when the posts listed
    after it can be classified, whatever the posts before it look like.
    When the stage events of the thread are listed by increasing
    identifier, that post has the greatest identifier among the posts that
    classify. *)
Theorem get_game_phase_latest (game_thread game_master : string)
    (before after : list node) (post : node) (stage : GameStage) :
  history game_thread game_master = before ++ post :: after ->
  classify post = Ok (Some stage) ->
  Forall (fun later => classify later = Ok None) after ->
  increasing
    (map gs_post_id (stage_events (history game_thread game_master)))
    = true ->
  get_game_phase game_thread game_master = Ok stage
  /\ forall post' stage',
       In post' (history game_thread game_master) ->
       classify post' = Ok (Some stage') ->
       gs_post_id stage' <= gs_post_id stage.
Proof.
  intros Hh Hp Hafter Hinc. split.
  - rewrite get_game_phase_scan, reverse_scan_rev.
    fold (history game_thread game_master).
    rewrite Hh, rev_app_distr. cbn [rev]. rewrite <- app_assoc.
    cbn [app]. erewrite for_return_first; [reflexivity| |exact Hp].
    apply Forall_forall. intros q Hq. apply in_rev in Hq.
    rewrite Forall_forall in Hafter. exact (Hafter q Hq).
  - intros q stage' Hq Hc.
    rewrite Hh in Hinc, Hq. rewrite stage_events_app in Hinc.
    cbn [stage_events] in Hinc. rewrite Hp in Hinc.
    rewrite (stage_events_none _ Hafter), map_app in Hinc.
    cbn [map] in Hinc. apply increasing_before in Hinc.
    apply in_app_or in Hq. destruct Hq as [Hq|[<-|Hq]].
    + pose proof (stage_events_in _ _ _ Hq Hc) as Hs.
      rewrite Forall_forall in Hinc.
      specialize (Hinc (gs_post_id stage') (in_map gs_post_id _ _ Hs)).
      lia.
    + rewrite Hp in Hc. injection Hc as <-. lia.
    + rewrite Forall_forall in Hafter. rewrite (Hafter q Hq) in Hc.
      discriminate.
Qed.

(** X19: when the classifier returns no stage event on every post of the
    game master's history, and so when the game master has no post at all,
    [get_game_phase] returns the default stage event, with identifier 1,
    stage Night and start time 0. *)
Theorem get_game_phase_default (game_thread game_master : string) :
  Forall (fun post => classify post = Ok None)
    (history game_thread game_master) ->
  get_game_phase game_thread game_master = Ok (mkGameStage 1 Night 0).
Proof.
  intros Hnone. unfold history in Hnone.
  rewrite get_game_phase_scan, reverse_scan_rev, for_return_none;
    [reflexivity|].
  apply Forall_forall. intros q Hq. rewrite Forall_forall in Hnone.
  apply Hnone. rewrite <- in_rev in Hq. exact Hq.
Qed.

(** The loop of [get_last_event] over the headers of a post, for a pattern
    that compiles. *)
Lemma event_of_post_valid (event_regex : string) (post : node) :
  re_error event_regex = false ->
  event_of_post event_regex post =
  if has_matching_header event_regex post
  then n <- post_number post ;; Ok (Some n)
  else Ok None.
Proof.
  intros Hv. unfold event_of_post, has_matching_header.
  induction (find_all "h2" [] post) as [|h hs IH];
    cbn [for_return existsb]; [reflexivity|].
  unfold match_pattern at 1. rewrite Hv. cbn [bind].
  destruct (re_match event_regex (text h)); cbn [orb].
  - unfold post_number.
    destruct (getitem post "data-num") as [v|e]; cbn [bind]; [|reflexivity].
    destruct (int v); reflexivity.
  - cbn [bind]. exact IH.
Qed.


(** The loops of [get_last_event] are one loop over the reverse scan. *)
Lemma get_last_event_scan (game_thread bot_id event_regex : string) :
  get_last_event game_thread bot_id event_regex =
  (r <- for_return
          (reverse_scan game_thread bot_id (page_count game_thread bot_id))
          (event_of_post event_regex) ;;
   match r with
   | Some post_id => Ok post_id
   | None => Ok 1
   end).
Proof.
  unfold get_last_event. rewrite get_total_pages_total. cbn [bind].
  rewrite for_return_flat_map. reflexivity.
Qed.

(** The last event as a search of the history from its end. *)
Lemma get_last_event_history (game_thread bot_id event_regex : string) :
  re_error event_regex = false ->
  get_last_event game_thread bot_id event_regex =
  match List.find (has_matching_header event_regex)
          (rev (history game_thread bot_id)) with
  | Some post => post_number post
  | None => Ok 1
  end.
Proof.
  intros Hv. rewrite get_last_event_scan, reverse_scan_rev.
  fold (history game_thread bot_id).
  rewrite (for_return_ext _ _ (fun post =>
    if has_matching_header event_regex post
    then n <- post_number post ;; Ok (Some n) else Ok None))
    by (intros post; apply event_of_post_valid; exact Hv).
  rewrite for_return_find.
  destruct (List.find _ _) as [post|]; [|reflexivity].
  cbn [bind]. destruct (post_number post); reflexivity.
Qed.

Lemma find_skip {A : Type} (test : A -> bool) (l1 l2 : list A) :
  Forall (fun x => test x = false) l1 ->
  List.find test (l1 ++ l2) = List.find test l2.
Proof.
  induction 1 as [|x l Hx _ IH]; cbn; [reflexivity|].
  rewrite Hx. exact IH.
Qed.

Lemma find_nothing {A : Type} (test : A -> bool) (l : list A) :
  Forall (fun x => test x = false) l -> List.find test l = None.
Proof.
  induction 1 as [|x l Hx _ IH]; cbn; [reflexivity|].
  rewrite Hx. exact IH.
Qed.

(** A post of the history is on one of the pages 1 to the page count. *)
Lemma in_history (game_thread author : string) (post : node) :
  In post (history game_thread author) ->
  exists j,
    1 <= j <= page_count game_thread author
    /\ In post (get_posts_from_page game_thread author j).
Proof.
  unfold history, authored_posts. intros H.
  apply in_flat_map in H. destruct H as (j & Hj & Hin).
  apply in_map_iff in Hj. destruct Hj as (m & <- & Hm).
  apply in_seq in Hm. exists (Z.of_nat m). split; [lia|exact Hin].
Qed.

(** The history around one of its pages: the posts of the page, between
    those of the pages before it and those of the pages after it. *)
Lemma history_around_page (game_thread author : string) (k : Z) :
  1 <= k <= page_count game_thread author ->
  exists earlier later,
    history game_thread author =
      earlier ++ get_posts_from_page game_thread author k ++ later
    /\ forall post,
         In post later ->
         exists j,
           k < j <= page_count game_thread author
           /\ In post (get_posts_from_page game_thread author j).
Proof.
  intros Hk. unfold history, authored_posts.
  set (n := Z.to_nat (page_count game_thread author)).
  set (kn := Z.to_nat k).
  assert (Hn : n = ((kn - 1) + S (n - kn))%nat) by lia.
  rewrite Hn, seq_app. cbn [seq].
  replace (1 + (kn - 1))%nat with kn by lia.
  rewrite map_app, flat_map_app. cbn [map flat_map].
  replace (Z.of_nat kn) with k by lia.
  eexists. eexists. split; [reflexivity|].
  intros post H. apply in_flat_map in H. destruct H as (j & Hj & Hin).
  apply in_map_iff in Hj. destruct Hj as (m & <- & Hm).
  apply in_seq in Hm. exists (Z.of_nat m). split; [lia|exact Hin].
Qed.

(** C7: for a pattern that compiles, [get_last_event] returns the
    identifier of the first post with a header the pattern matches that a
    scan of the author's posts from the end meets, and 1 when no post of
    the author's pages has such a header.  The scan goes through the pages
    1 to the page count from the last one to the first, and through the
    posts of a page from the last one to the first: the post found is on
    some page [k], no post after it on that page has a matching header and
    no post of a later page has one, whatever the posts before it and the
    earlier pages hold. *)
Theorem get_last_event_first_match (game_thread bot_id event_regex : string) :
  re_error event_regex = false ->
  get_last_event game_thread bot_id event_regex =
    match List.find (has_matching_header event_regex)
            (rev (history game_thread bot_id)) with
    | Some post => post_number post
    | None => Ok 1
    end
  /\ (forall k before post after,
        1 <= k <= page_count game_thread bot_id ->
        get_posts_from_page game_thread bot_id k = before ++ post :: after ->
        has_matching_header event_regex post = true ->
        Forall (fun later => has_matching_header event_regex later = false)
          after ->
        (forall j,
           k < j <= page_count game_thread bot_id ->
           Forall (fun later => has_matching_header event_regex later = false)
             (get_posts_from_page game_thread bot_id j)) ->
        get_last_event game_thread bot_id event_regex = post_number post)
  /\ ((forall j,
         1 <= j <= page_count game_thread bot_id ->
         Forall (fun post => has_matching_header event_regex post = false)
           (get_posts_from_page game_thread bot_id j)) ->
      get_last_event game_thread bot_id event_regex = Ok 1).
Proof.
  intros Hv.
  pose proof (get_last_event_history game_thread bot_id event_regex Hv) as E.
  split; [exact E|]. split.
  - intros k before post after Hk Hpage Hpost Hafter Hlater.
    destruct (history_around_page game_thread bot_id k Hk)
      as (earlier & later & Hh & Hin).
    rewrite E, Hh, Hpage, !rev_app_distr. cbn [rev].
    rewrite <- !app_assoc.
    rewrite find_skip.
    2:{ apply Forall_forall. intros q Hq. apply in_rev in Hq.
        destruct (Hin q Hq) as (j & Hj & Hqj).
        specialize (Hlater j Hj). rewrite Forall_forall in Hlater.
        exact (Hlater q Hqj). }
    rewrite find_skip.
    2:{ apply Forall_forall. intros q Hq. apply in_rev in Hq.
        rewrite Forall_forall in Hafter. exact (Hafter q Hq). }
    cbn [app List.find]. rewrite Hpost. reflexivity.
  - intros Hnone. rewrite E, find_nothing; [reflexivity|].
    apply Forall_forall. intros q Hq. apply in_rev in Hq.
    destruct (in_history _ _ _ Hq) as (j & Hj & Hqj).
    specialize (Hnone j Hj). rewrite Forall_forall in Hnone.
    exact (Hnone q Hqj).
Qed.

End Scanning.

(** ** Action extraction *)

Section Actions.

Context {host : Host}.

(** The loop over the commands of a post: nothing is read when there is
    no command, and otherwise one record is appended per command. *)
Lemma command_loop (post : node) (pid : Z) (commands : list node)
    (actions : list GameAction) :
  for_each commands (fun command actions =>
    time <- action_time post ;;
    let cmd := nfkc (lower (text command)) in
    who <- action_author post ;;
    Ok (actions ++ [mkGameAction pid time cmd who])) actions =
  match commands with
  | [] => Ok actions
  | _ :: _ =>
      ts <- action_time post ;;
      who <- action_author post ;;
      Ok (actions ++ map (record_of pid ts who) commands)
  end.
Proof.
  revert actions.
  induction commands as [|c cs IH]; intros actions; [reflexivity|].
  cbn [for_each].
  destruct (action_time post) as [ts|e]; cbn [bind]; [|reflexivity].
  destruct (action_author post) as [who|e]; cbn [bind]; [|reflexivity].
  rewrite IH. destruct cs as [|c' cs]; [reflexivity|].
  cbn [bind map]. rewrite <- app_assoc. reflexivity.
Qed.

Lemma actions_of_post_unfold (start : Z) (post : node)
    (actions : list GameAction) :
  actions_of_post start post actions =
  (pid <- post_number post ;;
   if start <? pid then
     commands <- command_headers post ;;
     match commands with
     | [] => Ok actions
     | _ :: _ =>
         ts <- action_time post ;;
         who <- action_author post ;;
         Ok (actions ++ map (record_of pid ts who) commands)
     end
   else Ok actions).
Proof.
  unfold actions_of_post. fold (post_number post).
  destruct (post_number post) as [pid|e]; cbn [bind]; [|reflexivity].
  destruct (start <? pid); [|reflexivity].
  fold (command_headers post).
  destruct (command_headers post) as [commands|e]; cbn [bind];
    [|reflexivity].
  exact (command_loop post pid commands actions).
Qed.

(** What a post adds does not depend on what was collected before it. *)
Lemma actions_of_post_acc (start : Z) (post : node)
    (actions : list GameAction) :
  actions_of_post start post actions =
  (l <- actions_of_post start post [] ;; Ok (actions ++ l)).
Proof.
  rewrite !actions_of_post_unfold.
  destruct (post_number post) as [pid|e]; cbn [bind]; [|reflexivity].
  destruct (start <? pid); [|cbn [bind]; rewrite app_nil_r; reflexivity].
  destruct (command_headers post) as [commands|e]; cbn [bind];
    [|reflexivity].
  destruct commands as [|c cs]; [cbn [bind]; rewrite app_nil_r; reflexivity|].
  destruct (action_time post); cbn [bind]; [|reflexivity].
  destruct (action_author post); cbn [bind]; reflexivity.
Qed.

Lemma for_each_gather (start : Z) (posts : list node)
    (actions : list GameAction) :
  for_each posts (actions_of_post start) actions =
  (l <- gather (fun post => actions_of_post start post []) posts ;;
   Ok (actions ++ l)).
Proof.
  revert actions.
  induction posts as [|p ps IH]; intros actions; cbn [for_each gather].
  - cbn [bind]. rewrite app_nil_r. reflexivity.
  - rewrite actions_of_post_acc.
    destruct (actions_of_post start p []) as [l|e]; cbn [bind];
      [|reflexivity].
    rewrite IH.
    destruct (gather _ ps) as [l'|e]; cbn [bind]; [|reflexivity].
    rewrite app_assoc. reflexivity.
Qed.

(** The page gives what its posts give, one post after the other. *)
Lemma get_actions_from_page_gather (game_thread : string)
    (page_to_scan start : Z) :
  get_actions_from_page game_thread page_to_scan start =
  gather (fun post => actions_of_post start post [])
    (action_posts game_thread page_to_scan).
Proof.
  unfold get_actions_from_page. fold (action_posts game_thread page_to_scan).
  rewrite for_each_gather.
  destruct (gather _ _); reflexivity.
Qed.

(** A post at or before the boundary adds nothing. *)
Lemma actions_of_post_skipped (start : Z) (post : node) (pid : Z)
    (actions : list GameAction) :
  post_number post = Ok pid -> pid <= start ->
  actions_of_post start post actions = Ok actions.
Proof.
  intros Hid Hle. rewrite actions_of_post_unfold, Hid. cbn [bind].
  replace (start <? pid) with false by (symmetry; apply Z.ltb_ge; lia).
  reflexivity.
Qed.

(** The records of a post carry its identifier, which is past the
    boundary. *)
Lemma actions_of_post_after (start : Z) (post : node)
    (l : list GameAction) :
  actions_of_post start post [] = Ok l ->
  Forall (fun a => start < ga_post_id a) l.
Proof.
  rewrite actions_of_post_unfold.
  destruct (post_number post) as [pid|e]; cbn [bind]; [|discriminate].
  destruct (Z.ltb_spec start pid) as [Hlt|Hge].
  - destruct (command_headers post) as [commands|e]; cbn [bind];
      [|discriminate].
    destruct commands as [|c cs].
    + intros H. injection H as <-. constructor.
    + destruct (action_time post) as [ts|e]; cbn [bind]; [|discriminate].
      destruct (action_author post) as [who|e]; cbn [bind]; [|discriminate].
      intros H. injection H as <-. cbn [app].
      apply Forall_forall. intros r Hr.
      change (In r (map (record_of pid ts who) (c :: cs))) in Hr.
      apply in_map_iff in Hr. destruct Hr as (h & <- & _). exact Hlt.
  - intros H. injection H as <-. constructor.
Qed.

Lemma gather_after (start : Z) (posts : list node) (l : list GameAction) :
  gather (fun post => actions_of_post start post []) posts = Ok l ->
  Forall (fun a => start < ga_post_id a) l.
Proof.
  revert l. induction posts as [|p ps IH]; intros l; cbn [gather].
  - intros H. injection H as <-. constructor.
  - destruct (actions_of_post start p []) as [lp|e] eqn:Ep; cbn [bind];
      [|discriminate].
    destruct (gather _ ps) as [lr|e]; cbn [bind]; [|discriminate].
    intros H. injection H as <-.
    apply Forall_app. split; [exact (actions_of_post_after _ _ _ Ep)|].
    apply IH. reflexivity.
Qed.

(** A post past the boundary without the content division stops the
    extraction: the call on the missing division raises. *)
Lemma actions_of_post_without_contents (start : Z) (post : node) (pid : Z)
    (actions : list GameAction) :
  post_number post = Ok pid -> start < pid ->
  find "div" [("class", Equals "post-contents")] post = None ->
  actions_of_post start post actions = Raise AttributeError.
Proof.
  intros Hid Hlt Hdiv. rewrite actions_of_post_unfold, Hid. cbn [bind].
  replace (start <? pid) with true by (symmetry; apply Z.ltb_lt; lia).
  unfold command_headers. rewrite Hdiv. reflexivity.
Qed.

(** C9: a post past the boundary, whose identifier, time stamp, author and
    content can be read, gives one record per command header of its
    content, in order: as many records as command headers, all with the
    identifier and the time stamp of the post and its author in lower case,
    and each with the text of its command, put in lower case and then
    normalized.  The page gives what its posts give, one post after the
    other. *)
Theorem actions_one_per_command (game_thread : string)
    (page_to_scan start : Z) (post : node) (pid ts : Z) (name : string)
    (commands : list node) :
  post_number post = Ok pid ->
  start < pid ->
  command_headers post = Ok commands ->
  action_time post = Ok ts ->
  getitem post "data-autor" = Ok (Str name) ->
  exists records,
    actions_of_post start post [] = Ok records
    /\ records =
       map (fun command =>
              mkGameAction pid ts (nfkc (lower (text command))) (lower name))
         commands
    /\ List.length records = List.length commands
    /\ get_actions_from_page game_thread page_to_scan start =
       gather (fun post => actions_of_post start post [])
         (action_posts game_thread page_to_scan).
Proof.
  intros Hid Hlt Hc Ht Ha.
  eexists. split; [|split; [reflexivity|split]].
  - rewrite actions_of_post_unfold, Hid. cbn [bind].
    replace (start <? pid) with true by (symmetry; apply Z.ltb_lt; lia).
    rewrite Hc. cbn [bind]. unfold action_author. rewrite Ht, Ha.
    destruct commands; reflexivity.
  - apply length_map.
  - apply get_actions_from_page_gather.
Qed.

(** C10: every record [get_actions_from_page] returns comes from a post
    whose identifier is greater than [start_from_post]; a post whose
    identifier is [start_from_post] or less adds nothing to the result. *)
Theorem actions_exclude_boundary (game_thread : string)
    (page_to_scan start_from_post : Z) (actions : list GameAction) :
  get_actions_from_page game_thread page_to_scan start_from_post
    = Ok actions ->
  Forall (fun a => start_from_post < ga_post_id a) actions
  /\ forall post pid collected,
       post_number post = Ok pid -> pid <= start_from_post ->
       actions_of_post start_from_post post collected = Ok collected.
Proof.
  intros H. split.
  - rewrite get_actions_from_page_gather in H. exact (gather_after _ _ _ H).
  - intros post pid collected. apply actions_of_post_skipped.
Qed.

End Actions.

(** ** The roster *)

Section Roster.

Context {host : Host}.

(** The posts of the page [get_player_list] fetches. *)
Lemma get_player_list_unfold (game_thread : string) (id page : Z) :
  get_page_number_from_post id = Ok page ->
  get_player_list game_thread id =
  (r <- for_return
          (find_all "div" post_criteria
             (fetch_html (game_thread ++ "/" ++ str_of_int page)))
          (fun post =>
             n <- post_number post ;;
             if n =? id then
               players <- find_all_of (find "ol" [] post) "a" ;;
               Ok (Some (map (fun player => strip (lower (text player)))
                           players))
             else Ok None) ;;
   match r with
   | Some players => Ok players
   | None => Ok []
   end).
Proof.
  intros Hp. unfold get_player_list. rewrite Hp. cbn [bind].
  f_equal. apply for_return_ext. intros post. unfold post_number.
  destruct (getitem post "data-num") as [v|e]; cbn [bind]; reflexivity.
Qed.

(** The roster is empty when no post of the page has the identifier. *)
Lemma get_player_list_absent (game_thread : string) (id page : Z) :
  get_page_number_from_post id = Ok page ->
  Forall (fun post => exists n, post_number post = Ok n /\ n <> id)
    (find_all "div" post_criteria
       (fetch_html (game_thread ++ "/" ++ str_of_int page))) ->
  get_player_list game_thread id = Ok [].
Proof.
  intros Hp Hall. rewrite (get_player_list_unfold _ _ _ Hp).
  rewrite for_return_none; [reflexivity|].
  eapply Forall_impl; [|exact Hall].
  intros post (n & -> & Hn). cbn [bind].
  replace (n =? id) with false by (symmetry; apply Z.eqb_neq; exact Hn).
  reflexivity.
Qed.

(** The roster of a post with an ordered list: the texts of its links, in
    lower case and trimmed. *)
Lemma get_player_list_present (game_thread : string) (id page : Z)
    (before after : list node) (post ol : node) :
  get_page_number_from_post id = Ok page ->
  find_all "div" post_criteria
    (fetch_html (game_thread ++ "/" ++ str_of_int page)) =
    before ++ post :: after ->
  Forall (fun other => exists n, post_number other = Ok n /\ n <> id)
    before ->
  post_number post = Ok id ->
  find "ol" [] post = Some ol ->
  get_player_list game_thread id =
  Ok (map (fun player => strip (lower (text player))) (find_all "a" [] ol)).
Proof.
  intros Hp Hposts Hbefore Hid Hol.
  rewrite (get_player_list_unfold _ _ _ Hp), Hposts.
  erewrite for_return_first; [reflexivity| |].
  - eapply Forall_impl; [|exact Hbefore].
    intros other (n & -> & Hn). cbn [bind].
    replace (n =? id) with false by (symmetry; apply Z.eqb_neq; exact Hn).
    reflexivity.
  - cbn beta. rewrite Hid. cbn [bind]. rewrite Z.eqb_refl, Hol.
    reflexivity.
Qed.

(** The post is there and has no ordered list: the call on the missing
    list raises. *)
Lemma get_player_list_without_list (game_thread : string) (id page : Z)
    (before after : list node) (post : node) :
  get_page_number_from_post id = Ok page ->
  find_all "div" post_criteria
    (fetch_html (game_thread ++ "/" ++ str_of_int page)) =
    before ++ post :: after ->
  Forall (fun other => exists n, post_number other = Ok n /\ n <> id)
    before ->
  post_number post = Ok id ->
  find "ol" [] post = None ->
  get_player_list game_thread id = Raise AttributeError.
Proof.
  intros Hp Hposts Hbefore Hid Hol.
  rewrite (get_player_list_unfold _ _ _ Hp), Hposts.
  rewrite for_return_app, for_return_none.
  - cbn [for_return]. rewrite Hid. cbn [bind]. rewrite Z.eqb_refl, Hol.
    reflexivity.
  - eapply Forall_impl; [|exact Hbefore].
    intros other (n & -> & Hn). cbn [bind].
    replace (n =? id) with false by (symmetry; apply Z.eqb_neq; exact Hn).
    reflexivity.
Qed.

End Roster.

(** ** The sample forum *)

Section OnTheSample.

Import Sample.

Example phase_of_sample :
  get_game_phase "t" "gm" = Ok (mkGameStage 12 Night 1700050000).
Proof. vm_compute. reflexivity. Qed.

Example phase_without_posts :
  history "w" "gm" = [] /\ get_game_phase "w" "gm" = Ok (mkGameStage 1 Night 0).
Proof. vm_compute. split; reflexivity. Qed.

Example last_tally_of_sample :
  get_last_votecount "t" "bot" = Ok (9, false).
Proof. vm_compute. reflexivity. Qed.

Example roster_of_sample :
  get_player_list "t" 1 = Ok ["ana"; "bruno"]
  /\ get_player_list "t" 99 = Ok [].
Proof. vm_compute. split; reflexivity. Qed.

Lemma get_game_phase_latest_witness :
  history (host := Outage.early) "e" "gm" =
    [bare_post "3" "gm" [heading "h2" "Día 0"]; day_post]
    ++ night_post :: [chat_post]
  /\ classify (host := Outage.early)
       (bare_post "3" "gm" [heading "h2" "Día 0"]) = Raise TypeError
  /\ classify (host := Outage.early) night_post
     = Ok (Some (mkGameStage 12 Night 1700050000))
  /\ Forall (fun later => classify (host := Outage.early) later = Ok None)
       [chat_post]
  /\ map gs_post_id
       (stage_events (host := Outage.early)
          (history (host := Outage.early) "e" "gm")) = [5; 12]
  /\ get_game_phase (host := Outage.early) "e" "gm"
     = Ok (mkGameStage 12 Night 1700050000)
  /\ forall post' stage',
       In post' (history (host := Outage.early) "e" "gm") ->
       classify (host := Outage.early) post' = Ok (Some stage') ->
       gs_post_id stage' <= 12.
Proof.
  repeat (split; [vm_compute; repeat constructor|]).
  apply (get_game_phase_latest (host := Outage.early) "e" "gm"
           [bare_post "3" "gm" [heading "h2" "Día 0"]; day_post]
           [chat_post] night_post (mkGameStage 12 Night 1700050000)).
  - vm_compute. reflexivity.
  - vm_compute. reflexivity.
  - repeat constructor.
  - vm_compute. reflexivity.
Defined.

(** Distinct identifiers are not enough for C1: post 20 of the game master
    quotes its post 12 with the markup, both posts classify, and the scan
    meets post 12 last in the document and first in the scan. *)
Lemma get_game_phase_not_greatest :
  history (host := Outage.quoting) "n" "gm"
    = [Outage.quoting_post; Outage.quoted_post]
  /\ post_numbers (host := Outage.quoting)
       [Outage.quoting_post; Outage.quoted_post] = Ok [20; 12]
  /\ NoDup [20; 12]
  /\ classify (host := Outage.quoting) Outage.quoting_post
     = Ok (Some (mkGameStage 20 Day 200))
  /\ classify (host := Outage.quoting) Outage.quoted_post
     = Ok (Some (mkGameStage 12 Day 120))
  /\ get_game_phase (host := Outage.quoting) "n" "gm"
     = Ok (mkGameStage 12 Day 120)
  /\ ~ (gs_post_id (mkGameStage 20 Day 200)
        <= gs_post_id (mkGameStage 12 Day 120)).
Proof.
  repeat (split; [vm_compute; reflexivity|]).
  split.
  - repeat constructor; cbn; intros H;
      repeat (destruct H as [H|H]; try discriminate); exact H.
  - repeat (split; [vm_compute; reflexivity|]).
    cbn. lia.
Defined.

Lemma parse_stage_precedence_witness :
  post_number ending_post = Ok 3
  /\ stage_time ending_post = Ok 100
  /\ find_all "h2" [] ending_post = [heading "h2" "Final de la partida"]
  /\ ends_game (text (heading "h2" "Final de la partida")) = true
  /\ starts_stage (text (heading "h2" "Final de la partida")) = true
  /\ parse_stage ending_post ends_game ends_stage starts_stage =
     Ok (Some (mkGameStage 3 End 100)).
Proof.
  repeat (split; [vm_compute; reflexivity|]).
  refine (proj1 (proj2 (parse_stage_precedence ends_game ends_stage
                          starts_stage ending_post 3 100 _ _))
            [] (heading "h2" "Final de la partida") [] _ _ _);
    vm_compute; reflexivity.
Defined.

Lemma get_game_phase_default_witness :
  Forall (fun post => classify post = Ok None) (history "t" "bot")
  /\ get_game_phase "t" "bot" = Ok (mkGameStage 1 Night 0).
Proof.
  assert (H : Forall (fun post => classify post = Ok None)
                (history "t" "bot")).
  { apply Forall_forall. intros post Hin. vm_compute in Hin.
    destruct Hin as [<-|[<-|[]]]; vm_compute; reflexivity. }
  split; [exact H|].
  exact (get_game_phase_default "t" "bot" H).
Defined.

Lemma actions_one_per_command_witness :
  post_number vote_post = Ok 7
  /\ 6 < 7
  /\ command_headers vote_post =
     Ok [heading "h4" "Voto a Bruno"; heading "h4" "Desvoto";
         heading "h4" "Voto a Carla"]
  /\ action_time vote_post = Ok 1700005000
  /\ getitem vote_post "data-autor" = Ok (Str "Ana")
  /\ exists records,
       actions_of_post 6 vote_post [] = Ok records
       /\ records =
          map (fun command =>
                 mkGameAction 7 1700005000 (nfkc (lower (text command)))
                   (lower "Ana"))
            [heading "h4" "Voto a Bruno"; heading "h4" "Desvoto";
             heading "h4" "Voto a Carla"]
       /\ List.length records = 3%nat
       /\ get_actions_from_page "t" 1 6 =
          gather (fun post => actions_of_post 6 post [])
            (action_posts "t" 1).
Proof.
  repeat (split; [vm_compute; reflexivity|]).
  apply (actions_one_per_command "t" 1 6 vote_post 7 1700005000 "Ana");
    vm_compute; reflexivity.
Defined.

Lemma actions_exclude_boundary_witness :
  get_actions_from_page "t" 1 7 =
    Ok [mkGameAction 8 1700006000 "voto a ana" "bruno"]
  /\ Forall (fun a => 7 < ga_post_id a)
       [mkGameAction 8 1700006000 "voto a ana" "bruno"]
  /\ actions_of_post 7 vote_post [] = Ok [].
Proof.
  assert (H : get_actions_from_page "t" 1 7 =
              Ok [mkGameAction 8 1700006000 "voto a ana" "bruno"])
    by (vm_compute; reflexivity).
  split; [exact H|].
  destruct (actions_exclude_boundary "t" 1 7 _ H) as [Hall Hskip].
  split; [exact Hall|].
  apply (Hskip vote_post 7); [vm_compute; reflexivity|lia].
Defined.

Lemma get_last_event_first_match_witness :
  re_error (Host := Outage.paged) "^Recuento de votos$" = false
  /\ page_count (host := Outage.paged) "p" "bot" = 2
  /\ get_posts_from_page (host := Outage.paged) "p" "bot" 1
     = [tally_post; final_tally_post]
  /\ get_posts_from_page (host := Outage.paged) "p" "bot" 2
     = [] ++ Outage.late_tally_post :: [Outage.count_post]
  /\ has_matching_header (host := Outage.paged) "^Recuento de votos$"
       tally_post = true
  /\ has_matching_header (host := Outage.paged) "^Recuento de votos$"
       Outage.late_tally_post = true
  /\ get_last_event (host := Outage.paged) "p" "bot" "^Recuento de votos$"
     = Ok 31.
Proof.
  repeat (split; [vm_compute; reflexivity|]).
  refine (eq_trans
            (proj1 (proj2 (get_last_event_first_match
                             (host := Outage.paged) "p" "bot"
                             "^Recuento de votos$" eq_refl))
               2 [] Outage.late_tally_post [Outage.count_post] _ _ _ _ _) _).
  - vm_compute. split; discriminate.
  - vm_compute. reflexivity.
  - vm_compute. reflexivity.
  - repeat constructor.
  - intros j Hj. exfalso.
    assert (E : page_count (host := Outage.paged) "p" "bot" = 2)
      by (vm_compute; reflexivity).
    rewrite E in Hj. lia.
  - vm_compute. reflexivity.
Defined.

(** C2: the claim that every post classifies by its first matching pair
    does not hold of the code.  The only header of the post is matched by
    the start-of-stage pattern alone, so the first matching pair is that of
    Day, and the post has no time stamp span: [parse_stage] raises a
    [TypeError] before it looks at the header. *)
Theorem day_header_without_span_raises :
  find_all "h2" [] (bare_post "3" "gm" [heading "h2" "Día 1"])
    = [heading "h2" "Día 1"]
  /\ first_matching_pair game_end_regex stage_end_regex stage_start_regex
       [heading "h2" "Día 1"] = Some Day
  /\ find "span" [("data-time", Present)]
       (bare_post "3" "gm" [heading "h2" "Día 1"]) = None
  /\ parse_stage (bare_post "3" "gm" [heading "h2" "Día 1"])
       game_end_regex stage_end_regex stage_start_regex = Raise TypeError.
Proof. vm_compute. repeat split; reflexivity. Qed.

(** C6: the claim that a history without a classifying post gives the
    default stage event does not hold of the code.  The only post of the
    game master has no header, so nothing classifies, and it has no time
    stamp span: [get_game_phase] raises a [TypeError]. *)
Theorem phase_of_unclassifiable_post_raises :
  history (host := Outage.silent) "s" "gm" = [Outage.welcome_post]
  /\ find_all "h2" [] Outage.welcome_post = []
  /\ stage_events (host := Outage.silent) [Outage.welcome_post] = []
  /\ get_game_phase (host := Outage.silent) "s" "gm" = Raise TypeError.
Proof. vm_compute. repeat split; reflexivity. Qed.

(** C4: the claim that no extraction raises does not hold of the code.
    On a post of the game master without the time stamp span,
    [parse_stage] raises a [TypeError], and [get_game_phase] with it; on a
    post without the content division, [get_actions_from_page] raises an
    [AttributeError]. *)
Theorem extraction_raises :
  parse_stage (bare_post "3" "gm" [heading "h2" "Día 1"])
    game_end_regex stage_end_regex stage_start_regex = Raise TypeError
  /\ get_game_phase "u" "gm" = Raise TypeError
  /\ get_actions_from_page "u" 1 0 = Raise AttributeError.
Proof. vm_compute. repeat split; reflexivity. Qed.

(** C5: the claim that the roster is empty when the post has no ordered
    list does not hold of the code.  The post is on its page and has no
    [ol] element, and [get_player_list] raises an [AttributeError]. *)
Theorem roster_without_list_raises :
  In day_post (find_all "div" post_criteria (fetch_html "t/1"))
  /\ post_number day_post = Ok 5
  /\ find "ol" [] day_post = None
  /\ get_player_list "t" 5 = Raise AttributeError.
Proof.
  split; [vm_compute; right; left; reflexivity|].
  vm_compute. repeat split; reflexivity.
Qed.

End OnTheSample.

(** ** The page of a post *)

Lemma ceil_unique (m t c : Z) :
  0 < t -> t * (c - 1) < m -> m <= t * c -> - ((- m) / t) = c.
Proof.
  intros Ht Hlo Hhi.
  assert (E : - c = (- m) / t).
  { apply Z.div_unique with (r := t * c - m); [left; lia|ring]. }
  lia.
Qed.

Lemma exact_ceil_bounds (p : Z) :
  30 * (exact_ceil p 30 - 1) < p <= 30 * exact_ceil p 30.
Proof.
  unfold exact_ceil.
  pose proof (Z.div_mod (- p) 30 ltac:(lia)) as E.
  pose proof (Z.mod_pos_bound (- p) 30 ltac:(lia)) as B.
  lia.
Qed.

(** Rounding a quotient by 30 to a multiple of [1 / t] keeps its ceiling
    when the step [1 / t] is at most [1 / 16]: the fractional part of the
    quotient is at least [1 / 30], more than half a step. *)
Lemma round_keeps_ceiling (p t : Z) :
  0 < p -> 16 <= t ->
  exact_ceil (round_half_even (p * t) 30) t = exact_ceil p 30.
Proof.
  intros Hp Ht.
  pose proof (exact_ceil_bounds p) as [Hlo Hhi].
  set (c := exact_ceil p 30) in *.
  assert (H1 : 30 * (c - 1) * t + t <= p * t) by nia.
  assert (H2 : p * t <= 30 * c * t) by nia.
  unfold round_half_even.
  pose proof (Z.div_mod (p * t) 30 ltac:(lia)) as E.
  pose proof (Z.mod_pos_bound (p * t) 30 ltac:(lia)) as B.
  set (q := p * t / 30) in *. set (r := (p * t) mod 30) in *.
  unfold exact_ceil at 1.
  destruct (Z.ltb_spec (2 * r) 30) as [C1|C1];
    [|destruct (Z.ltb_spec 30 (2 * r)) as [C2|C2];
      [|destruct (Z.even q)]];
    apply ceil_unique; lia.
Qed.

Lemma quotient_log2_30 (p : Z) :
  1 <= p < 30 * 2 ^ 49 -> -5 <= quotient_log2 p 30 <= 48.
Proof.
  intros [Hlo Hhi]. unfold quotient_log2.
  change (Z.log2 30) with 4.
  assert (H0 : 0 <= Z.log2 p) by apply Z.log2_nonneg.
  assert (H1 : Z.log2 p < 54).
  { apply Z.log2_lt_pow2; [lia|]. change (2 ^ 54) with 18014398509481984.
    change (2 ^ 49) with 562949953421312 in Hhi. lia. }
  destruct (Z.eq_dec (Z.log2 p) 53) as [E|E].
  - rewrite E. change (53 - 4) with 49.
    rewrite (Z.max_l 0 (- (49))), (Z.max_r 0 49) by lia.
    replace (p * 2 ^ 0 <? 30 * 2 ^ 49) with true
      by (symmetry; apply Z.ltb_lt; lia).
    lia.
  - destruct (_ <? _); lia.
Qed.

(** On the identifiers up to [30 * 2 ^ 49] the page is the exact one. *)
Lemma get_page_number_exact (p : Z) :
  1 <= p <= 30 * 2 ^ 49 ->
  get_page_number_from_post p = Ok (exact_ceil p 30).
Proof.
  intros [Hlo Hhi].
  destruct (Z.eq_dec p (30 * 2 ^ 49)) as [->|Hne];
    [vm_compute; reflexivity|].
  pose proof (quotient_log2_30 p ltac:(lia)) as HL.
  unfold get_page_number_from_post, int_truediv, nearest_binary64.
  change (30 =? 0) with false.
  replace (p =? 0) with false by (symmetry; apply Z.eqb_neq; lia).
  rewrite (Z.abs_eq p) by lia. change (Z.abs 30) with 30.
  set (l := quotient_log2 p 30) in *.
  rewrite (Z.max_l (l - 52) (- 1074)) by lia.
  cbn [expo mant].
  replace (0 <=? l - 52) with false by (symmetry; apply Z.leb_gt; lia).
  cbn [andb bind]. unfold ceil. cbn [expo mant].
  replace (0 <=? l - 52) with false by (symmetry; apply Z.leb_gt; lia).
  rewrite (Z.max_r 0 (- (l - 52))) by lia.
  rewrite (Z.max_l 0 (l - 52)) by lia.
  rewrite (Z.sgn_pos p) by lia. change (Z.sgn 30) with 1.
  change (30 * 2 ^ 0) with 30. rewrite !Z.mul_1_l.
  f_equal. apply round_keeps_ceiling; [lia|].
  change 16 with (2 ^ 4). apply Z.pow_le_mono_r; lia.
Qed.

(** On those identifiers the page does not decrease with the identifier. *)
Lemma get_page_number_monotone (p p' n n' : Z) :
  1 <= p -> p <= p' -> p' <= 30 * 2 ^ 49 ->
  get_page_number_from_post p = Ok n ->
  get_page_number_from_post p' = Ok n' ->
  n <= n'.
Proof.
  intros H1 H2 H3.
  rewrite !get_page_number_exact by lia.
  intros E E'. injection E as <-. injection E' as <-.
  unfold exact_ceil.
  pose proof (Z.div_le_mono (- p') (- p) 30 ltac:(lia) ltac:(lia)). lia.
Qed.

(** C3: the claim that the page of a post is [ceil(P / 30)] for every
    identifier does not hold of the code, which divides in floating point.
    The quotient of [30 * 2 ^ 49 + 1] by 30 is rounded to [2 ^ 49], and the
    page returned is one less than [ceil(P / 30)]. *)
Theorem page_number_rounds_down :
  16888498602639361 = 30 * 2 ^ 49 + 1
  /\ get_page_number_from_post 16888498602639361 = Ok 562949953421312
  /\ exact_ceil 16888498602639361 30 = 562949953421313.
Proof. vm_compute. repeat split; reflexivity. Qed.

(** * Further properties *)

(** ** The post locator *)

Section Locator.

Context {host : Host}.

Lemma find_all_matches (name : string) (crit : list (string * criterion))
    (n t : node) :
  In t (find_all name crit n) -> matches name crit t = true.
Proof. unfold find_all. intros H. apply filter_In in H. apply H. Qed.

Lemma find_matches (name : string) (crit : list (string * criterion))
    (n t : node) :
  find name crit n = Some t -> matches name crit t = true.
Proof.
  unfold find. intros H. apply (find_all_matches name crit n).
  destruct (find_all name crit n) as [|x l]; [discriminate|].
  injection H as ->. left; reflexivity.
Qed.

(** A tag found under the criterion [True] for a key has a value there. *)
Lemma matches_present (name key : string)
    (crit : list (string * criterion)) (t : node) :
  matches name crit t = true -> In (key, Present) crit ->
  exists v, getitem t key = Ok v.
Proof.
  destruct t as [s|nm a cs]; [discriminate|].
  cbn [matches]. intros H Hin. apply andb_prop in H. destruct H as [_ H].
  rewrite forallb_forall in H. specialize (H _ Hin). cbn [fst snd] in H.
  unfold getitem, get. cbn [attrs_of].
  destruct (lookup key a) as [v|]; [exists v; reflexivity|discriminate].
Qed.

Lemma matches_name (name : string) (crit : list (string * criterion))
    (t : node) :
  matches name crit t = true ->
  exists a cs, t = Tag name a cs.
Proof.
  destruct t as [s|nm a cs]; [discriminate|].
  cbn [matches]. intros H. apply andb_prop in H. destruct H as [H _].
  apply String.eqb_eq in H. subst nm. exists a, cs. reflexivity.
Qed.

(** What [get_posts_from_page] returns are [div] tags that carry a
    [data-num] and a [data-autor] attribute. *)
Lemma located_post (game_thread author : string) (page : Z) (post : node) :
  In post (get_posts_from_page game_thread author page) ->
  (exists a cs, post = Tag "div" a cs)
  /\ (exists v, getitem post "data-num" = Ok v)
  /\ (exists v, getitem post "data-autor" = Ok v).
Proof.
  unfold get_posts_from_page. intros H. apply find_all_matches in H.
  split; [exact (matches_name _ _ _ H)|]. split.
  - apply (matches_present _ _ _ _ H). left; reflexivity.
  - apply (matches_present _ _ _ _ H). right; left; reflexivity.
Qed.

(** X1: every element [get_posts_from_page] returns is a [div] tag that
    carries both a [data-num] and a [data-autor] attribute, so reading
    either attribute of a located post never raises a [KeyError]. *)
Theorem get_posts_from_page_attributes (game_thread author : string)
    (page : Z) :
  Forall (fun post =>
            (exists a cs, post = Tag "div" a cs)
            /\ (exists v, getitem post "data-num" = Ok v)
            /\ (exists v, getitem post "data-autor" = Ok v))
    (get_posts_from_page game_thread author page).
Proof.
  apply Forall_forall. intros post H.
  exact (located_post game_thread author page post H).
Qed.

End Locator.

(** ** What the scans raise and return *)

Section ScanOutcomes.

Context {host : Host}.

Lemma for_return_raise {A B : Type} (l : list A)
    (body : A -> result (option B)) (e : exn) :
  for_return l body = Raise e -> exists x, In x l /\ body x = Raise e.
Proof.
  induction l as [|x l IH]; cbn [for_return]; [discriminate|].
  destruct (body x) as [[b|]|e'] eqn:E; cbn [bind]; intros H.
  - discriminate.
  - destruct (IH H) as (y & Hy & Ey). exists y. split; [right|]; assumption.
  - injection H as ->. exists x. split; [left; reflexivity|exact E].
Qed.

Lemma for_return_some {A B : Type} (l : list A)
    (body : A -> result (option B)) (b : B) :
  for_return l body = Ok (Some b) ->
  exists x, In x l /\ body x = Ok (Some b).
Proof.
  induction l as [|x l IH]; cbn [for_return]; [discriminate|].
  destruct (body x) as [[b'|]|e'] eqn:E; cbn [bind]; intros H.
  - injection H as ->. exists x. split; [left; reflexivity|exact E].
  - destruct (IH H) as (y & Hy & Ey). exists y. split; [right|]; assumption.
  - discriminate.
Qed.

Lemma in_reverse_scan (game_thread author : string) (pages : Z)
    (post : node) :
  In post (reverse_scan game_thread author pages) ->
  exists page, In post (get_posts_from_page game_thread author page).
Proof.
  unfold reverse_scan. intros H. apply in_flat_map in H.
  destruct H as (page & _ & H). exists page. apply in_rev. exact H.
Qed.

Lemma int_raises (v : attr_value) (e : exn) :
  int v = Raise e -> e = TypeError \/ e = ValueError.
Proof.
  destruct v as [s|ts]; cbn [int].
  - destruct (int_of_str s); [discriminate|].
    intros H. injection H as <-. right; reflexivity.
  - intros H. injection H as <-. left; reflexivity.
Qed.

(** On a post that has a number attribute the classifier raises nothing
    but a [TypeError] or a [ValueError]. *)
Lemma parse_stage_raises (ge se ss : string -> bool) (post : node)
    (e : exn) :
  (exists v, getitem post "data-num" = Ok v) ->
  parse_stage post ge se ss = Raise e ->
  e = TypeError \/ e = ValueError.
Proof.
  intros (v & Hv). rewrite parse_stage_unfold. unfold post_number.
  rewrite Hv. cbn [bind].
  destruct (int v) as [pid|e1] eqn:E1; cbn [bind].
  2:{ intros H. injection H as <-. exact (int_raises _ _ E1). }
  unfold stage_time.
  destruct (find "span" [("data-time", Present)] post) as [span|] eqn:Es;
    cbn [subscript].
  2:{ cbn [bind]. intros H. injection H as <-. left; reflexivity. }
  destruct (matches_present "span" "data-time" _ span (find_matches _ _ _ _ Es))
    as (w & Hw); [left; reflexivity|].
  rewrite Hw. cbn [bind].
  destruct (int w) as [ts|e2] eqn:E2; cbn [bind].
  2:{ intros H. injection H as <-. exact (int_raises _ _ E2). }
  rewrite stage_loop_first_pair. discriminate.
Qed.

(** X2: the only exceptions [get_game_phase] lets through are [TypeError]
    and [ValueError]: the posts it classifies all have a number attribute
    and [get_total_pages] catches its own failures, so the query never
    raises a [KeyError], an [AttributeError] or an [IndexError]. *)
Theorem get_game_phase_raises (game_thread game_master : string) (e : exn) :
  get_game_phase game_thread game_master = Raise e ->
  e = TypeError \/ e = ValueError.
Proof.
  rewrite get_game_phase_scan.
  destruct (for_return _ classify) as [[stage|]|e'] eqn:E; cbn [bind];
    try discriminate.
  intros H. injection H as ->.
  apply for_return_raise in E. destruct E as (post & Hin & Hr).
  apply in_reverse_scan in Hin. destruct Hin as (page & Hin).
  apply located_post in Hin. destruct Hin as (_ & Hnum & _).
  exact (parse_stage_raises _ _ _ post e Hnum Hr).
Qed.


(** X4: a stage event that [get_game_phase] returns is the default one or
    the classification of a post of the game master's pages: the query
    invents no event, whatever the other posts look like. *)
Theorem get_game_phase_sound (game_thread game_master : string)
    (stage : GameStage) :
  get_game_phase game_thread game_master = Ok stage ->
  stage = mkGameStage 1 Night 0
  \/ exists post,
       In post (history game_thread game_master)
       /\ classify post = Ok (Some stage)
       /\ post_number post = Ok (gs_post_id stage).
Proof.
  rewrite get_game_phase_scan, reverse_scan_rev.
  fold (history game_thread game_master).
  destruct (for_return _ classify) as [[found|]|e'] eqn:E; cbn [bind];
    try discriminate.
  - intros H. injection H as ->. right.
    apply for_return_some in E. destruct E as (post & Hin & Hc).
    exists post. split; [apply in_rev; exact Hin|]. split; [exact Hc|].
    exact (parse_stage_post_id _ _ _ _ _ Hc).
  - intros H. injection H as <-. left; reflexivity.
Qed.

End ScanOutcomes.

(** ** Degraded threads *)

Section Degraded.

Context {host : Host}.

Lemma flat_map_nil {A B : Type} (f : A -> list B) (l : list A) :
  (forall x, f x = []) -> flat_map f l = [].
Proof.
  intros H. induction l as [|x l IH]; cbn; [reflexivity|].
  rewrite H, IH. reflexivity.
Qed.

Lemma find_none {A : Type} (test : A -> bool) (l : list A) :
  Forall (fun x => test x = false) l -> List.find test l = None.
Proof.
  induction 1 as [|x l Hx _ IH]; cbn; [reflexivity|].
  rewrite Hx. exact IH.
Qed.

Lemma py_index_last {A : Type} (l : list A) :
  py_index l (-1) =
  match rev l with
  | a :: _ => Ok a
  | [] => Raise IndexError
  end.
Proof.
  unfold py_index.
  destruct (rev l) as [|a r] eqn:E;
    apply (f_equal (@rev A)) in E; rewrite rev_involutive in E; subst l;
    [reflexivity|].
  cbn [rev]. rewrite length_app, length_rev. cbn [List.length].
  replace (-1 <? 0) with true by reflexivity.
  replace (Z.of_nat (List.length r + 1) + -1)
    with (Z.of_nat (List.length r)) by lia.
  replace (0 <=? Z.of_nat (List.length r)) with true
    by (symmetry; apply Z.leb_le; lia).
  replace (Z.of_nat (List.length r) <? Z.of_nat (List.length r + 1))
    with true by (symmetry; apply Z.ltb_lt; lia).
  cbn [andb]. rewrite Nat2Z.id.
  rewrite nth_error_app2 by (rewrite length_rev; lia).
  rewrite length_rev, Nat.sub_diag. reflexivity.
Qed.

(** With no page to visit the scans find nothing. *)
Lemma reverse_scan_no_page (game_thread author : string) (pages : Z) :
  pages <= 0 -> reverse_scan game_thread author pages = [].
Proof.
  intros H. unfold reverse_scan, range_down.
  replace (Z.to_nat pages) with 0%nat by lia. reflexivity.
Qed.

(** X5: when every request fails, each query answers with its default and
    none raises: the phase is the default stage event, the last event and
    the last post are post 1, the last tally is post 1 and counts as final,
    the page count is 1, and there are no actions and no players. *)
Theorem offline_defaults (game_thread author event_regex : string)
    (page start post_id page_number : Z) :
  (forall url, http_get url = None) ->
  get_page_number_from_post post_id = Ok page_number ->
  get_game_phase game_thread author = Ok (mkGameStage 1 Night 0)
  /\ get_last_event game_thread author event_regex = Ok 1
  /\ get_last_votecount game_thread author = Ok (1, true)
  /\ get_last_post game_thread = Ok 1
  /\ request_page_count game_thread = Ok 1
  /\ get_actions_from_page game_thread page start = Ok []
  /\ get_player_list game_thread post_id = Ok [].
Proof.
  intros Hoff Hpage.
  assert (Hfetch : forall url, fetch_html url = empty_soup).
  { intros url. unfold fetch_html. rewrite Hoff. reflexivity. }
  assert (Hposts : forall t a p, get_posts_from_page t a p = []).
  { intros t a p. unfold get_posts_from_page. rewrite Hfetch. reflexivity. }
  assert (Hscan : forall t a n, reverse_scan t a n = []).
  { intros t a n. unfold reverse_scan. apply flat_map_nil.
    intros x. rewrite Hposts. reflexivity. }
  assert (Hevent : forall re, get_last_event game_thread author re = Ok 1).
  { intros re. rewrite get_last_event_scan, Hscan. reflexivity. }
  split; [rewrite get_game_phase_scan, Hscan; reflexivity|].
  split; [apply Hevent|].
  split; [unfold get_last_votecount; rewrite !Hevent; reflexivity|].
  split.
  { unfold get_last_post, request_page_count. rewrite Hfetch.
    cbn [bind get_total_pages]. rewrite get_total_pages_total. cbn [bind].
    rewrite Hfetch. reflexivity. }
  split; [unfold request_page_count; rewrite Hfetch; reflexivity|].
  split; [unfold get_actions_from_page; rewrite Hfetch; reflexivity|].
  unfold get_player_list. rewrite Hpage. cbn [bind]. rewrite Hfetch.
  reflexivity.
Qed.

(** X6: when the navigation panel gives a page count of zero or less, the
    scans visit no page: [get_game_phase] returns the default stage event
    and [get_last_event] returns 1, whatever the pages of posts hold. *)
Theorem no_page_no_scan (game_thread author event_regex : string) :
  page_count game_thread author <= 0 ->
  get_game_phase game_thread author = Ok (mkGameStage 1 Night 0)
  /\ get_last_event game_thread author event_regex = Ok 1.
Proof.
  intros H. split.
  - rewrite get_game_phase_scan, (reverse_scan_no_page _ _ _ H).
    reflexivity.
  - rewrite get_last_event_scan, (reverse_scan_no_page _ _ _ H).
    reflexivity.
Qed.

(** X7: when no post of the bot has a header that either tally pattern
    matches, [get_last_votecount] returns post 1 and reports it as a final
    tally: the two searches fall back to the same identifier. *)
Theorem no_tally_counts_as_final (game_thread bot_id : string) :
  Forall (fun post =>
            has_matching_header "^Recuento de votos$" post = false
            /\ has_matching_header "^Recuento de votos final$" post = false)
    (history game_thread bot_id) ->
  get_last_votecount game_thread bot_id = Ok (1, true).
Proof.
  intros H.
  assert (Hrev : forall re,
            re_error re = false ->
            Forall (fun post => has_matching_header re post = false)
              (history game_thread bot_id) ->
            get_last_event game_thread bot_id re = Ok 1).
  { intros re Hv Hre. rewrite (get_last_event_history _ _ _ Hv).
    rewrite find_none; [reflexivity|].
    apply Forall_forall. intros post Hin. rewrite Forall_forall in Hre.
    apply Hre, in_rev, Hin. }
  unfold get_last_votecount.
  rewrite (Hrev _ tally_pattern_compiles),
    (Hrev _ final_tally_pattern_compiles); [reflexivity| |];
    (eapply Forall_impl; [|exact H]); cbn beta; intros post [H1 H2];
    assumption.
Qed.

(** X8: [get_last_post] returns the number of the last post of the last
    page of the thread, and 1 when that page shows no post; it never
    raises an [IndexError]. *)
Theorem get_last_post_spec (game_thread : string) :
  get_last_post game_thread =
  match rev (page_posts game_thread
               (total_pages_by_spec (fetch_html game_thread))) with
  | [] => Ok 1
  | post :: _ => post_number post
  end.
Proof.
  unfold get_last_post, request_page_count, page_posts.
  rewrite get_total_pages_total. cbn [bind].
  set (posts := find_all "div" post_criteria _).
  destruct posts as [|p ps] eqn:E; [reflexivity|].
  rewrite py_index_last.
  destruct (rev (p :: ps)) as [|post r] eqn:Er.
  - apply (f_equal (@List.length node)) in Er. rewrite length_rev in Er.
    discriminate.
  - reflexivity.
Qed.

End Degraded.

(** ** Moving the boundary of the actions *)

Section Boundary.

Context {host : Host}.

Lemma filter_all {A : Type} (test : A -> bool) (l : list A) :
  Forall (fun x => test x = true) l -> filter test l = l.
Proof.
  induction 1 as [|x l Hx _ IH]; cbn; [reflexivity|].
  rewrite Hx, IH. reflexivity.
Qed.

Lemma filter_none {A : Type} (test : A -> bool) (l : list A) :
  Forall (fun x => test x = false) l -> filter test l = [].
Proof.
  induction 1 as [|x l Hx _ IH]; cbn; [reflexivity|].
  rewrite Hx, IH. reflexivity.
Qed.

(** All the records of a post carry its number. *)
Lemma actions_of_post_ids (start : Z) (post : node) (pid : Z)
    (l : list GameAction) :
  post_number post = Ok pid ->
  actions_of_post start post [] = Ok l ->
  Forall (fun a => ga_post_id a = pid) l.
Proof.
  intros Hid. rewrite actions_of_post_unfold, Hid. cbn [bind].
  destruct (start <? pid).
  - destruct (command_headers post) as [commands|e]; cbn [bind];
      [|discriminate].
    destruct commands as [|c cs].
    + intros H. injection H as <-. constructor.
    + destruct (action_time post) as [ts|e]; cbn [bind]; [|discriminate].
      destruct (action_author post) as [who|e]; cbn [bind]; [|discriminate].
      intros H. injection H as <-.
      apply Forall_forall. intros r Hr.
      change (In r (map (record_of pid ts who) (c :: cs))) in Hr.
      apply in_map_iff in Hr. destruct Hr as (h & <- & _). reflexivity.
  - intros H. injection H as <-. constructor.
Qed.

(** What a post gives past a later boundary is what it gave past the
    earlier one, without the records the later boundary leaves behind. *)
Lemma actions_of_post_later (start start' : Z) (post : node)
    (l : list GameAction) :
  start <= start' ->
  actions_of_post start post [] = Ok l ->
  actions_of_post start' post [] =
  Ok (filter (fun a => start' <? ga_post_id a) l).
Proof.
  intros Hle Hl.
  destruct (post_number post) as [pid|e] eqn:Hid.
  2:{ rewrite actions_of_post_unfold, Hid in Hl. discriminate. }
  pose proof (actions_of_post_ids _ _ _ _ Hid Hl) as Hids.
  destruct (Z.ltb_spec start' pid) as [Hlt|Hge].
  - rewrite filter_all.
    2:{ eapply Forall_impl; [|exact Hids]. cbn beta. intros a ->.
        apply Z.ltb_lt. exact Hlt. }
    rewrite actions_of_post_unfold, Hid in Hl |- *. cbn [bind] in Hl |- *.
    replace (start <? pid) with true in Hl
      by (symmetry; apply Z.ltb_lt; lia).
    replace (start' <? pid) with true by (symmetry; apply Z.ltb_lt; lia).
    exact Hl.
  - rewrite filter_none.
    2:{ eapply Forall_impl; [|exact Hids]. cbn beta. intros a ->.
        apply Z.ltb_ge. exact Hge. }
    apply (actions_of_post_skipped _ _ pid); assumption.
Qed.

Lemma gather_later (start start' : Z) (posts : list node)
    (l : list GameAction) :
  start <= start' ->
  gather (fun post => actions_of_post start post []) posts = Ok l ->
  gather (fun post => actions_of_post start' post []) posts =
  Ok (filter (fun a => start' <? ga_post_id a) l).
Proof.
  intros Hle. revert l.
  induction posts as [|p ps IH]; intros l; cbn [gather].
  - intros H. injection H as <-. reflexivity.
  - destruct (actions_of_post start p []) as [lp|e] eqn:Ep; cbn [bind];
      [|discriminate].
    destruct (gather _ ps) as [lr|e] eqn:Er; cbn [bind]; [|discriminate].
    intros H. injection H as <-.
    rewrite (actions_of_post_later _ _ _ _ Hle Ep). cbn [bind].
    rewrite (IH lr eq_refl). cbn [bind]. rewrite filter_app. reflexivity.
Qed.

(** X9: moving the boundary forward only drops records: when
    [get_actions_from_page] returns a list for [start_from_post], it
    returns for a later boundary, on the same page, the records of that
    list whose post is past the later boundary, in the same order. *)
Theorem actions_later_boundary (game_thread : string)
    (page_to_scan start start' : Z) (actions : list GameAction) :
  start <= start' ->
  get_actions_from_page game_thread page_to_scan start = Ok actions ->
  get_actions_from_page game_thread page_to_scan start' =
  Ok (filter (fun a => start' <? ga_post_id a) actions).
Proof.
  intros Hle. rewrite !get_actions_from_page_gather.
  apply gather_later. exact Hle.
Qed.

(** X10: a boundary at or past the number of every post of the page leaves
    nothing to extract: [get_actions_from_page] returns the empty list
    without looking at the content of any post. *)
Theorem actions_nothing_new (game_thread : string)
    (page_to_scan start : Z) :
  Forall (fun post => exists pid, post_number post = Ok pid /\ pid <= start)
    (action_posts game_thread page_to_scan) ->
  get_actions_from_page game_thread page_to_scan start = Ok [].
Proof.
  rewrite get_actions_from_page_gather.
  induction 1 as [|p ps (pid & Hid & Hle) _ IH]; cbn [gather];
    [reflexivity|].
  rewrite (actions_of_post_skipped _ _ pid [] Hid Hle). cbn [bind].
  rewrite IH. reflexivity.
Qed.

(** X11: a post past the boundary whose content has no command header adds
    no record, and its time stamp and its author are not read: the
    extraction goes on even when the post lacks them. *)
Theorem actions_without_commands (start : Z) (post : node) (pid : Z)
    (collected : list GameAction) :
  post_number post = Ok pid ->
  command_headers post = Ok [] ->
  actions_of_post start post collected = Ok collected.
Proof.
  intros Hid Hc. rewrite actions_of_post_unfold, Hid. cbn [bind].
  rewrite Hc. cbn [bind]. destruct (start <? pid); reflexivity.
Qed.

End Boundary.

(** ** The page and the roster *)

Section PageAndRoster.

Context {host : Host}.

(** X12: for the identifiers from 1 to [30 * 2 ^ 49] the page returned is
    the one whose thirty identifiers contain the post: page [n] holds the
    posts [30 * (n - 1) + 1] to [30 * n]. *)
Theorem page_holds_post (post_id : Z) :
  1 <= post_id <= 30 * 2 ^ 49 ->
  exists n,
    get_page_number_from_post post_id = Ok n
    /\ 30 * (n - 1) < post_id <= 30 * n
    /\ 1 <= n.
Proof.
  intros H. exists (exact_ceil post_id 30).
  split; [apply get_page_number_exact; exact H|].
  pose proof (exact_ceil_bounds post_id). lia.
Qed.

(** X13: the roster of a post that is on its page with an ordered list:
    [get_player_list] fetches the page [ceil(id / 30)] alone, takes the
    first post of that page with the identifier, and returns the texts of
    the links of the first ordered list of the post, in lower case and
    trimmed, in document order. *)
Theorem get_player_list_roster (game_thread : string) (id : Z)
    (before after : list node) (post ol : node) :
  1 <= id <= 30 * 2 ^ 49 ->
  page_posts game_thread (exact_ceil id 30) = before ++ post :: after ->
  Forall (fun other => exists n, post_number other = Ok n /\ n <> id)
    before ->
  post_number post = Ok id ->
  find "ol" [] post = Some ol ->
  get_player_list game_thread id =
  Ok (map (fun player => strip (lower (text player))) (find_all "a" [] ol)).
Proof.
  intros Hid Hposts Hbefore Hnum Hol.
  exact (get_player_list_present game_thread id (exact_ceil id 30)
           before after post ol (get_page_number_exact id Hid)
           Hposts Hbefore Hnum Hol).
Qed.

(** X14: the roster is empty, and nothing is raised, when every post of
    the page [ceil(id / 30)] has a number and none has the identifier. *)
Theorem get_player_list_missing_post (game_thread : string) (id : Z) :
  1 <= id <= 30 * 2 ^ 49 ->
  Forall (fun post => exists n, post_number post = Ok n /\ n <> id)
    (page_posts game_thread (exact_ceil id 30)) ->
  get_player_list game_thread id = Ok [].
Proof.
  intros Hid Hall.
  exact (get_player_list_absent game_thread id (exact_ceil id 30)
           (get_page_number_exact id Hid) Hall).
Qed.

End PageAndRoster.

(** ** The page of a post, for every identifier *)

Section Rounding.

Lemma round_half_even_bounds (n d : Z) :
  n / d <= round_half_even n d <= n / d + 1.
Proof.
  unfold round_half_even.
  destruct (2 * (n mod d) <? d); [lia|].
  destruct (d <? 2 * (n mod d)); [lia|].
  destruct (Z.even (n / d)); lia.
Qed.

(** Rounding to the nearest integer keeps the order of the numerators. *)
Lemma round_half_even_mono (n n' d : Z) :
  0 < d -> n <= n' -> round_half_even n d <= round_half_even n' d.
Proof.
  intros Hd Hn.
  pose proof (Z.div_le_mono n n' d Hd Hn) as Hq.
  destruct (Z.eq_dec (n / d) (n' / d)) as [E|E].
  - pose proof (Z.div_mod n d ltac:(lia)) as E1.
    pose proof (Z.div_mod n' d ltac:(lia)) as E2.
    unfold round_half_even. rewrite <- E in *.
    set (q := n / d) in *. set (r := n mod d) in *.
    set (r' := n' mod d) in *.
    assert (Hr : r <= r') by lia.
    destruct (Z.ltb_spec (2 * r) d), (Z.ltb_spec (2 * r') d),
      (Z.ltb_spec d (2 * r)), (Z.ltb_spec d (2 * r')),
      (Z.even q); lia.
  - pose proof (round_half_even_bounds n d).
    pose proof (round_half_even_bounds n' d). lia.
Qed.

Lemma round_half_even_between (n d lo hi : Z) :
  0 < d -> d * lo <= n -> n < d * hi ->
  lo <= round_half_even n d <= hi.
Proof.
  intros Hd Hlo Hhi.
  pose proof (round_half_even_bounds n d).
  pose proof (Z.div_le_lower_bound n d lo Hd Hlo).
  pose proof (Z.div_lt_upper_bound n d hi Hd Hhi). lia.
Qed.

(** Past [30 * 2 ^ 49] the exponent of the quotient is at least 49. *)
Lemma quotient_log2_big (a : Z) :
  30 * 2 ^ 49 < a ->
  49 <= quotient_log2 a 30
  /\ 30 * 2 ^ quotient_log2 a 30 <= a < 30 * 2 ^ (quotient_log2 a 30 + 1).
Proof.
  intros Ha. change (2 ^ 49) with 562949953421312 in Ha.
  unfold quotient_log2. change (Z.log2 30) with 4.
  pose proof (Z.log2_spec a ltac:(lia)) as [Hlo Hhi].
  assert (H53 : 53 <= Z.log2 a).
  { apply Z.log2_le_pow2; [lia|]. change (2 ^ 53) with 9007199254740992.
    lia. }
  set (d := Z.log2 a - 4) in *.
  replace (Z.log2 a) with (d + 4) in Hlo, Hhi by (unfold d; lia).
  rewrite (Z.max_l 0 (- d)), (Z.max_r 0 d) by lia.
  rewrite Z.pow_0_r, Z.mul_1_r.
  replace (Z.succ (d + 4)) with (d + 5) in Hhi by lia.
  rewrite Z.pow_add_r in Hlo, Hhi by lia.
  change (2 ^ 4) with 16 in Hlo. change (2 ^ 5) with 32 in Hhi.
  assert (Hd : 2 ^ d = 2 * 2 ^ (d - 1)).
  { replace d with (d - 1 + 1) at 1 by lia.
    rewrite Z.pow_add_r by lia. change (2 ^ 1) with 2. lia. }
  assert (Hd1 : 2 ^ (d + 1) = 2 * 2 ^ d).
  { rewrite Z.pow_add_r by lia. change (2 ^ 1) with 2. lia. }
  assert (Hpos : 0 < 2 ^ (d - 1)) by (apply Z.pow_pos_nonneg; lia).
  assert (H49 : d = 49 -> 2 ^ d = 562949953421312) by (intros ->; reflexivity).
  assert (Hmono : 2 ^ 49 <= 2 ^ d) by (apply Z.pow_le_mono_r; lia).
  change (2 ^ 49) with 562949953421312 in Hmono.
  destruct (Z.ltb_spec a (30 * 2 ^ d)) as [C|C].
  - replace (d - 1 + 1) with d by lia.
    split; [|lia].
    destruct (Z.eq_dec d 49) as [E|E]; [|lia].
    specialize (H49 E). lia.
  - rewrite Hd1. lia.
Qed.

Lemma pow2_split (k : Z) : 3 <= k -> 2 ^ k = 8 * 2 ^ (k - 3).
Proof.
  intros H. replace k with (3 + (k - 3)) at 1 by lia.
  rewrite Z.pow_add_r by lia. reflexivity.
Qed.

(** The mantissa of the quotient has its 53 bits. *)
Lemma scaled_quotient_bounds (a : Z) :
  30 * 2 ^ 49 < a ->
  2 ^ 52 * 2 ^ (quotient_log2 a 30 - 49) <= scaled_quotient a
  /\ scaled_quotient a <= 2 ^ 53 * 2 ^ (quotient_log2 a 30 - 49).
Proof.
  intros Ha. destruct (quotient_log2_big a Ha) as (HL & Hlo & Hhi).
  unfold scaled_quotient. set (l := quotient_log2 a 30) in *.
  assert (Ht : 0 < 2 ^ (l - 49)) by (apply Z.pow_pos_nonneg; lia).
  assert (El : 2 ^ l = 2 ^ 49 * 2 ^ (l - 49)).
  { rewrite <- Z.pow_add_r by lia. f_equal. lia. }
  assert (El1 : 2 ^ (l + 1) = 2 ^ 50 * 2 ^ (l - 49)).
  { rewrite <- Z.pow_add_r by lia. f_equal. lia. }
  rewrite El in Hlo. rewrite El1 in Hhi.
  change (2 ^ 49) with 562949953421312 in *.
  change (2 ^ 50) with 1125899906842624 in *.
  change (2 ^ 52) with 4503599627370496.
  change (2 ^ 53) with 9007199254740992.
  enough (H : 4503599627370496
              <= round_half_even (a * 2 ^ Z.max 0 (- (l - 52)))
                   (30 * 2 ^ Z.max 0 (l - 52))
              <= 9007199254740992) by nia.
  destruct (Z_lt_le_dec l 52) as [C|C].
  - rewrite (Z.max_r 0 (- (l - 52))), (Z.max_l 0 (l - 52)) by lia.
    change (30 * 2 ^ 0) with 30.
    assert (Hl : l = 49 \/ l = 50 \/ l = 51) by lia.
    apply round_half_even_between; [lia| |];
      destruct Hl as [E | [E | E]]; rewrite E in *; cbn in *; lia.
  - rewrite (Z.max_l 0 (- (l - 52))), (Z.max_r 0 (l - 52)) by lia.
    rewrite Z.pow_0_r, Z.mul_1_r.
    rewrite (pow2_split (l - 49)) in Hlo, Hhi by lia.
    replace (l - 49 - 3) with (l - 52) in Hlo, Hhi by lia.
    assert (Hs : 0 < 2 ^ (l - 52)) by (apply Z.pow_pos_nonneg; lia).
    apply round_half_even_between; lia.
Qed.

(** Past [30 * 2 ^ 49] the page is the ceiling of the rounded quotient. *)
Lemma page_number_big (a n : Z) :
  30 * 2 ^ 49 < a ->
  get_page_number_from_post a = Ok n ->
  n = exact_ceil (scaled_quotient a) 8.
Proof.
  intros Ha. destruct (quotient_log2_big a Ha) as (HL & _).
  change (2 ^ 49) with 562949953421312 in Ha.
  unfold get_page_number_from_post, int_truediv, nearest_binary64,
    scaled_quotient.
  change (30 =? 0) with false.
  replace (a =? 0) with false by (symmetry; apply Z.eqb_neq; lia).
  rewrite (Z.abs_eq a) by lia. change (Z.abs 30) with 30.
  set (l := quotient_log2 a 30) in *.
  rewrite (Z.max_l (l - 52) (- 1074)) by lia.
  set (m := round_half_even _ _).
  cbn [expo mant].
  destruct ((0 <=? l - 52) && (2 ^ 1024 <=? m * 2 ^ (l - 52)));
    cbn [bind]; [discriminate|].
  intros H. injection H as <-.
  unfold ceil, exact_ceil. cbn [expo mant].
  rewrite (Z.sgn_pos a) by lia. change (Z.sgn 30) with 1.
  rewrite !Z.mul_1_l.
  destruct (Z.leb_spec 0 (l - 52)) as [C|C].
  - rewrite (pow2_split (l - 49)) by lia.
    replace (l - 49 - 3) with (l - 52) by lia.
    replace (- (m * (8 * 2 ^ (l - 52)))) with (- (m * 2 ^ (l - 52)) * 8)
      by ring.
    rewrite Z.div_mul by lia. lia.
  - assert (Hl : l = 49 \/ l = 50 \/ l = 51) by lia.
    destruct Hl as [E | [E | E]]; rewrite E; cbn.
    + replace (m * 1) with m by lia. reflexivity.
    + replace (- (m * 2)) with (- m * 2) by ring.
      change 8 with (4 * 2). rewrite Z.div_mul_cancel_r by lia. reflexivity.
    + replace (- (m * 4)) with (- m * 4) by ring.
      change 8 with (2 * 4). rewrite Z.div_mul_cancel_r by lia. reflexivity.
Qed.

(** Past [30 * 2 ^ 49] the rounded quotient keeps the order of the
    identifiers: for one exponent rounding is monotone, and from one
    exponent to the next the quotients stay on their side of the power of
    two between them. *)
Lemma scaled_quotient_mono (a a' : Z) :
  30 * 2 ^ 49 < a -> a <= a' -> scaled_quotient a <= scaled_quotient a'.
Proof.
  intros Ha Hle.
  assert (Ha' : 30 * 2 ^ 49 < a') by lia.
  destruct (quotient_log2_big a Ha) as (HL & Hlo & Hhi).
  destruct (quotient_log2_big a' Ha') as (HL' & Hlo' & Hhi').
  pose proof (scaled_quotient_bounds a Ha) as [_ Hup].
  pose proof (scaled_quotient_bounds a' Ha') as [Hdown _].
  set (l := quotient_log2 a 30) in *. set (l' := quotient_log2 a' 30) in *.
  assert (Hll : l <= l').
  { assert (H : 2 ^ l < 2 ^ (l' + 1)) by lia.
    apply Z.pow_lt_mono_r_iff in H; lia. }
  destruct (Z.eq_dec l l') as [E|E].
  - unfold scaled_quotient. fold l. fold l'. rewrite <- E.
    apply Z.mul_le_mono_nonneg_r; [apply Z.pow_nonneg; lia|].
    apply round_half_even_mono.
    + assert (0 < 2 ^ Z.max 0 (l - 52)) by (apply Z.pow_pos_nonneg; lia).
      lia.
    + apply Z.mul_le_mono_nonneg_r; [apply Z.pow_nonneg; lia|exact Hle].
  - assert (H : 2 ^ 53 * 2 ^ (l - 49) <= 2 ^ 52 * 2 ^ (l' - 49)).
    { rewrite <- !Z.pow_add_r by lia. apply Z.pow_le_mono_r; lia. }
    lia.
Qed.

(** X15: the page never decreases when the identifier grows: for any two
    identifiers [1 <= p <= p'] on which [get_page_number_from_post]
    returns, however large, the page of [p] is at most the page of [p']. *)
Theorem get_page_number_nondecreasing (p p' n n' : Z) :
  1 <= p -> p <= p' ->
  get_page_number_from_post p = Ok n ->
  get_page_number_from_post p' = Ok n' ->
  n <= n'.
Proof.
  intros H1 Hle Hn Hn'.
  destruct (Z_le_gt_dec p' (30 * 2 ^ 49)) as [C'|C'].
  - rewrite get_page_number_exact in Hn, Hn' by lia.
    injection Hn as <-. injection Hn' as <-. unfold exact_ceil.
    pose proof (Z.div_le_mono (- p') (- p) 30 ltac:(lia) ltac:(lia)). lia.
  - apply page_number_big in Hn'; [|lia]. subst n'.
    pose proof (scaled_quotient_bounds p' ltac:(lia)) as [Hdown _].
    destruct (quotient_log2_big p' ltac:(lia)) as (HL' & _).
    destruct (Z_le_gt_dec p (30 * 2 ^ 49)) as [C|C].
    + rewrite get_page_number_exact in Hn by lia. injection Hn as <-.
      assert (Hs : 2 ^ 52 <= scaled_quotient p').
      { assert (1 <= 2 ^ (quotient_log2 p' 30 - 49))
          by (apply (Z.pow_le_mono_r 2 0); lia).
        change (2 ^ 52) with 4503599627370496 in *. nia. }
      unfold exact_ceil.
      pose proof (Z.div_le_mono (- (30 * 2 ^ 49)) (- p) 30
                    ltac:(lia) ltac:(lia)) as Hp.
      pose proof (Z.div_le_mono (- scaled_quotient p') (- 2 ^ 52) 8
                    ltac:(lia) ltac:(lia)) as Hq.
      change (- (30 * 2 ^ 49) / 30) with (- 562949953421312) in Hp.
      change (- 2 ^ 52 / 8) with (- 562949953421312) in Hq.
      lia.
    + apply page_number_big in Hn; [|lia]. subst n.
      pose proof (scaled_quotient_mono p p' ltac:(lia) Hle) as Hm.
      unfold exact_ceil.
      pose proof (Z.div_le_mono (- scaled_quotient p')
                    (- scaled_quotient p) 8 ltac:(lia) ltac:(lia)).
      lia.
Qed.

End Rounding.

(** ** The tally and the patterns *)

Section TallyAndPatterns.

Context {host : Host}.

(** In a history with increasing numbers two posts with one number are one
    post. *)
Lemma same_number_same_post (posts : list node) (ids : list Z)
    (p q : node) (v : Z) :
  post_numbers posts = Ok ids -> increasing ids = true ->
  In p posts -> In q posts ->
  post_number p = Ok v -> post_number q = Ok v -> p = q.
Proof.
  intros Hn Hinc Hp Hq Hvp Hvq.
  destruct (in_split _ _ Hp) as (a & b & ->).
  apply in_app_or in Hq. destruct Hq as [Hq|[Hq|Hq]].
  - pose proof (earlier_post_lesser _ _ _ _ _ _ _ Hn Hinc Hq Hvq Hvp). lia.
  - exact Hq.
  - destruct (in_split _ _ Hq) as (b1 & b2 & ->).
    change (a ++ p :: b1 ++ q :: b2) with (a ++ (p :: b1) ++ q :: b2) in Hn.
    rewrite app_assoc in Hn.
    assert (Hin : In p (a ++ p :: b1))
      by (apply in_or_app; right; left; reflexivity).
    pose proof (earlier_post_lesser _ _ _ _ _ _ _ Hn Hinc Hin Hvp Hvq). lia.
Qed.

(** X16: in a thread whose posts are listed by increasing number,
    [get_last_votecount] reports a final tally only for post 1 or for a
    post that has both a header the tally pattern matches and a header the
    final tally pattern matches: the two searches must end on one post. *)
Theorem final_tally_needs_both_headers (game_thread bot_id : string)
    (ids : list Z) (v : Z) :
  post_numbers (history game_thread bot_id) = Ok ids ->
  increasing ids = true ->
  get_last_votecount game_thread bot_id = Ok (v, true) ->
  v = 1
  \/ exists post,
       In post (history game_thread bot_id)
       /\ has_matching_header "^Recuento de votos$" post = true
       /\ has_matching_header "^Recuento de votos final$" post = true
       /\ post_number post = Ok v.
Proof.
  intros Hn Hinc. unfold get_last_votecount.
  rewrite (get_last_event_history _ _ _ tally_pattern_compiles),
    (get_last_event_history _ _ _ final_tally_pattern_compiles).
  destruct (List.find (has_matching_header "^Recuento de votos$") _)
    as [p|] eqn:Ep.
  2:{ cbn [bind].
      destruct (match List.find _ _ with Some _ => _ | None => _ end);
        cbn [bind]; [|discriminate].
      intros H. injection H as <- _. left; reflexivity. }
  destruct (post_number p) as [vp|e] eqn:Hvp; cbn [bind]; [|discriminate].
  destruct (List.find (has_matching_header "^Recuento de votos final$") _)
    as [q|] eqn:Eq.
  2:{ cbn [bind]. intros H. injection H as <- Hb.
      change ((1 =? vp) = true) in Hb.
      apply Z.eqb_eq in Hb. left. lia. }
  destruct (post_number q) as [vq|e] eqn:Hvq; cbn [bind]; [|discriminate].
  intros H. injection H as <- Hb. apply Z.eqb_eq in Hb. subst vq.
  apply find_some in Ep, Eq. destruct Ep as [Hp Hmp], Eq as [Hq Hmq].
  apply in_rev in Hp, Hq.
  pose proof (same_number_same_post _ _ _ _ _ Hn Hinc Hp Hq Hvp Hvq) as E.
  subst q. right. exists p. auto.
Qed.

Lemma prefix_get (p s : string) :
  String.prefix p s = true ->
  forall n c, String.get n p = Some c -> String.get n s = Some c.
Proof.
  revert s. induction p as [|a p IH]; intros s H n c Hc;
    [destruct n; discriminate|].
  destruct s as [|b s]; [discriminate|].
  cbn [String.prefix] in H.
  destruct (ascii_dec a b) as [<-|]; [|discriminate].
  destruct n as [|n]; cbn [String.get] in *; [exact Hc|].
  exact (IH s H n c Hc).
Qed.

(** Two literals that differ at a position are not both at the start of a
    string. *)
Lemma prefix_apart (p q s : string) (n : nat) (c d : ascii) :
  String.get n p = Some c -> String.get n q = Some d -> c <> d ->
  String.prefix p s = true -> String.prefix q s = false.
Proof.
  intros Hc Hd Hne Hp.
  destruct (String.prefix q s) eqn:Hq; [|reflexivity].
  pose proof (prefix_get _ _ Hp _ _ Hc) as E1.
  pose proof (prefix_get _ _ Hq _ _ Hd) as E2.
  rewrite E1 in E2. injection E2 as E. contradiction.
Qed.

(** X17: when [re.match] finds each of the three stage patterns exactly at
    the start of the strings that begin with its literal part, no header
    matches two of the patterns of [get_game_phase]: a header that matches
    one is told from the two others by its first or its ninth character. *)
Theorem stage_patterns_exclusive (s : string) :
  (forall t, re_match "^Final de la partida" t =
             String.prefix "Final de la partida" t) ->
  (forall t, re_match "^Final del día [0-9]*" t =
             String.prefix "Final del día " t) ->
  (forall t, re_match "^Día [0-9]*" t = String.prefix "Día " t) ->
  (game_end_regex s = true ->
   stage_end_regex s = false /\ stage_start_regex s = false)
  /\ (stage_end_regex s = true ->
      game_end_regex s = false /\ stage_start_regex s = false)
  /\ (stage_start_regex s = true ->
      game_end_regex s = false /\ stage_end_regex s = false).
Proof.
  intros H1 H2 H3.
  unfold game_end_regex, stage_end_regex, stage_start_regex.
  rewrite H1, H2, H3.
  split; [|split]; intros H; split.
  - apply (prefix_apart "Final de la partida" "Final del día " s 8
             " "%char "l"%char eq_refl eq_refl); [discriminate|exact H].
  - apply (prefix_apart "Final de la partida" "Día " s 0
             "F"%char "D"%char eq_refl eq_refl); [discriminate|exact H].
  - apply (prefix_apart "Final del día " "Final de la partida" s 8
             "l"%char " "%char eq_refl eq_refl); [discriminate|exact H].
  - apply (prefix_apart "Final del día " "Día " s 0
             "F"%char "D"%char eq_refl eq_refl); [discriminate|exact H].
  - apply (prefix_apart "Día " "Final de la partida" s 0
             "D"%char "F"%char eq_refl eq_refl); [discriminate|exact H].
  - apply (prefix_apart "Día " "Final del día " s 0
             "D"%char "F"%char eq_refl eq_refl); [discriminate|exact H].
Qed.

End TallyAndPatterns.

(** ** The further properties on the forums *)

Section OnTheForums.

Import Sample.

Lemma get_game_phase_raises_witness :
  get_game_phase (host := forum) "u" "gm" = Raise TypeError
  /\ (TypeError = TypeError \/ TypeError = ValueError).
Proof.
  assert (H : get_game_phase (host := forum) "u" "gm" = Raise TypeError)
    by (vm_compute; reflexivity).
  split; [exact H|].
  exact (get_game_phase_raises (host := forum) "u" "gm" TypeError H).
Defined.


Example last_event_of_garbled_number :
  get_last_event (host := Outage.garbled) "g" "bot" "^Recuento de votos$"
  = Raise ValueError.
Proof. vm_compute. reflexivity. Qed.

Lemma get_game_phase_sound_witness :
  get_game_phase (host := forum) "t" "gm"
    = Ok (mkGameStage 12 Night 1700050000)
  /\ (mkGameStage 12 Night 1700050000 = mkGameStage 1 Night 0
      \/ exists post,
           In post (history (host := forum) "t" "gm")
           /\ classify (host := forum) post
              = Ok (Some (mkGameStage 12 Night 1700050000))
           /\ post_number (host := forum) post = Ok 12).
Proof.
  assert (H : get_game_phase (host := forum) "t" "gm"
              = Ok (mkGameStage 12 Night 1700050000))
    by (vm_compute; reflexivity).
  split; [exact H|].
  exact (get_game_phase_sound (host := forum) "t" "gm" _ H).
Defined.

Lemma offline_defaults_witness :
  (forall url, http_get (Host := Outage.offline) url = None)
  /\ get_page_number_from_post 5 = Ok 1
  /\ get_game_phase (host := Outage.offline) "t" "gm"
     = Ok (mkGameStage 1 Night 0)
  /\ get_last_event (host := Outage.offline) "t" "gm" "^Día" = Ok 1
  /\ get_last_votecount (host := Outage.offline) "t" "gm" = Ok (1, true)
  /\ get_last_post (host := Outage.offline) "t" = Ok 1
  /\ request_page_count (host := Outage.offline) "t" = Ok 1
  /\ get_actions_from_page (host := Outage.offline) "t" 3 0 = Ok []
  /\ get_player_list (host := Outage.offline) "t" 5 = Ok [].
Proof.
  split; [intros url; reflexivity|].
  split; [vm_compute; reflexivity|].
  apply (offline_defaults (host := Outage.offline) "t" "gm" "^Día" 3 0 5 1).
  - intros url. reflexivity.
  - vm_compute. reflexivity.
Defined.

Lemma no_page_no_scan_witness :
  page_count (host := Outage.stale) "z" "gm" <= 0
  /\ In night_post (get_posts_from_page (host := Outage.stale) "z" "gm" 1)
  /\ get_game_phase (host := Outage.stale) "z" "gm"
     = Ok (mkGameStage 1 Night 0)
  /\ get_last_event (host := Outage.stale) "z" "gm" "^Recuento de votos$"
     = Ok 1.
Proof.
  assert (H : page_count (host := Outage.stale) "z" "gm" <= 0)
    by (vm_compute; discriminate).
  split; [exact H|].
  split; [vm_compute; left; reflexivity|].
  exact (no_page_no_scan (host := Outage.stale) "z" "gm"
           "^Recuento de votos$" H).
Defined.

Lemma no_tally_counts_as_final_witness :
  Forall (fun post =>
            has_matching_header (host := forum) "^Recuento de votos$" post
              = false
            /\ has_matching_header (host := forum)
                 "^Recuento de votos final$" post = false)
    (history (host := forum) "t" "gm")
  /\ get_last_votecount (host := forum) "t" "gm" = Ok (1, true).
Proof.
  assert (H : Forall (fun post =>
                has_matching_header (host := forum) "^Recuento de votos$"
                  post = false
                /\ has_matching_header (host := forum)
                     "^Recuento de votos final$" post = false)
                (history (host := forum) "t" "gm")).
  { apply Forall_forall. intros post Hin. vm_compute in Hin.
    destruct Hin as [<-|[<-|[<-|[]]]]; vm_compute; split; reflexivity. }
  split; [exact H|].
  exact (no_tally_counts_as_final (host := forum) "t" "gm" H).
Defined.

Lemma actions_later_boundary_witness :
  6 <= 7
  /\ get_actions_from_page (host := forum) "t" 1 6 =
     Ok [mkGameAction 7 1700005000 "voto a bruno" "ana";
         mkGameAction 7 1700005000 "desvoto" "ana";
         mkGameAction 7 1700005000 "voto a carla" "ana";
         mkGameAction 8 1700006000 "voto a ana" "bruno"]
  /\ get_actions_from_page (host := forum) "t" 1 7 =
     Ok (filter (fun a => 7 <? ga_post_id a)
           [mkGameAction 7 1700005000 "voto a bruno" "ana";
            mkGameAction 7 1700005000 "desvoto" "ana";
            mkGameAction 7 1700005000 "voto a carla" "ana";
            mkGameAction 8 1700006000 "voto a ana" "bruno"]).
Proof.
  split; [lia|].
  assert (H : get_actions_from_page (host := forum) "t" 1 6 =
     Ok [mkGameAction 7 1700005000 "voto a bruno" "ana";
         mkGameAction 7 1700005000 "desvoto" "ana";
         mkGameAction 7 1700005000 "voto a carla" "ana";
         mkGameAction 8 1700006000 "voto a ana" "bruno"])
    by (vm_compute; reflexivity).
  split; [exact H|].
  exact (actions_later_boundary (host := forum) "t" 1 6 7 _ ltac:(lia) H).
Defined.

Lemma actions_nothing_new_witness :
  Forall (fun post =>
            exists pid, post_number (host := forum) post = Ok pid
                        /\ pid <= 12)
    (action_posts (host := forum) "t" 1)
  /\ get_actions_from_page (host := forum) "t" 1 12 = Ok [].
Proof.
  assert (H : Forall (fun post =>
                exists pid, post_number (host := forum) post = Ok pid
                            /\ pid <= 12)
                (action_posts (host := forum) "t" 1)).
  { apply Forall_forall. intros post Hin. vm_compute in Hin.
    destruct Hin as [<-|[<-|[<-|[<-|[<-|[<-|[<-|[]]]]]]]];
      eexists; (split; [vm_compute; reflexivity|lia]). }
  split; [exact H|].
  exact (actions_nothing_new (host := forum) "t" 1 12 H).
Defined.

Lemma actions_without_commands_witness :
  post_number (host := forum) Outage.quiet_post = Ok 4
  /\ command_headers Outage.quiet_post = Ok []
  /\ action_time (host := forum) Outage.quiet_post = Raise TypeError
  /\ actions_of_post (host := forum) 0 Outage.quiet_post [] = Ok [].
Proof.
  repeat (split; [vm_compute; reflexivity|]).
  apply (actions_without_commands (host := forum) 0 Outage.quiet_post 4 []);
    vm_compute; reflexivity.
Defined.

Lemma page_holds_post_witness :
  1 <= 31 <= 30 * 2 ^ 49
  /\ exists n,
       get_page_number_from_post 31 = Ok n
       /\ 30 * (n - 1) < 31 <= 30 * n
       /\ 1 <= n.
Proof.
  assert (H : 1 <= 31 <= 30 * 2 ^ 49) by (vm_compute; split; discriminate).
  split; [exact H|].
  exact (page_holds_post 31 H).
Defined.

Lemma get_player_list_roster_witness :
  1 <= 1 <= 30 * 2 ^ 49
  /\ page_posts (host := forum) "t" (exact_ceil 1 30) =
     [] ++ roster_post
        :: [day_post; vote_post; late_vote_post; tally_post;
            final_tally_post; night_post]
  /\ post_number (host := forum) roster_post = Ok 1
  /\ get_player_list (host := forum) "t" 1 = Ok ["ana"; "bruno"].
Proof.
  assert (H : 1 <= 1 <= 30 * 2 ^ 49) by (vm_compute; split; discriminate).
  split; [exact H|].
  split; [vm_compute; reflexivity|].
  split; [vm_compute; reflexivity|].
  refine (eq_trans
            (get_player_list_roster (host := forum) "t" 1 [] _ roster_post
               (Tag "ol" []
                  [Tag "li" [] [Tag "a" [] [NavigableString " Ana "]];
                   Tag "li" [] [Tag "a" [] [NavigableString "BRUNO"]]])
               H _ _ _ _) _);
    try (vm_compute; reflexivity).
  constructor.
Defined.

Lemma get_player_list_missing_post_witness :
  1 <= 2 <= 30 * 2 ^ 49
  /\ Forall (fun post =>
               exists n, post_number (host := forum) post = Ok n /\ n <> 2)
       (page_posts (host := forum) "t" (exact_ceil 2 30))
  /\ get_player_list (host := forum) "t" 2 = Ok [].
Proof.
  assert (H : 1 <= 2 <= 30 * 2 ^ 49) by (vm_compute; split; discriminate).
  assert (F : Forall (fun post =>
                exists n, post_number (host := forum) post = Ok n /\ n <> 2)
                (page_posts (host := forum) "t" (exact_ceil 2 30))).
  { apply Forall_forall. intros post Hin. vm_compute in Hin.
    destruct Hin as [<-|[<-|[<-|[<-|[<-|[<-|[<-|[]]]]]]]];
      eexists; (split; [vm_compute; reflexivity|discriminate]). }
  split; [exact H|]. split; [exact F|].
  exact (get_player_list_missing_post (host := forum) "t" 2 H F).
Defined.

Lemma get_page_number_nondecreasing_witness :
  1 <= 29
  /\ 29 <= 16888498602639365
  /\ get_page_number_from_post 29 = Ok 1
  /\ get_page_number_from_post 16888498602639365 = Ok 562949953421313
  /\ 1 <= 562949953421313.
Proof.
  assert (H1 : 1 <= 29) by lia.
  assert (H2 : 29 <= 16888498602639365) by lia.
  assert (H3 : get_page_number_from_post 29 = Ok 1)
    by (vm_compute; reflexivity).
  assert (H4 : get_page_number_from_post 16888498602639365
               = Ok 562949953421313) by (vm_compute; reflexivity).
  repeat (split; [assumption|]).
  exact (get_page_number_nondecreasing _ _ _ _ H1 H2 H3 H4).
Defined.

Lemma final_tally_needs_both_headers_witness :
  post_numbers (host := Outage.closing)
    (history (host := Outage.closing) "c" "bot") = Ok [9; 15]
  /\ increasing [9; 15] = true
  /\ get_last_votecount (host := Outage.closing) "c" "bot" = Ok (15, true)
  /\ (15 = 1
      \/ exists post,
           In post (history (host := Outage.closing) "c" "bot")
           /\ has_matching_header (host := Outage.closing)
                "^Recuento de votos$" post = true
           /\ has_matching_header (host := Outage.closing)
                "^Recuento de votos final$" post = true
           /\ post_number (host := Outage.closing) post = Ok 15).
Proof.
  repeat (split; [vm_compute; reflexivity|]).
  apply (final_tally_needs_both_headers (host := Outage.closing) "c" "bot"
           [9; 15] 15); vm_compute; reflexivity.
Defined.

Lemma stage_patterns_exclusive_witness :
  (forall t, re_match (Host := forum) "^Final de la partida" t =
             String.prefix "Final de la partida" t)
  /\ (forall t, re_match (Host := forum) "^Final del día [0-9]*" t =
                String.prefix "Final del día " t)
  /\ (forall t, re_match (Host := forum) "^Día [0-9]*" t =
                String.prefix "Día " t)
  /\ game_end_regex (host := forum) "Final de la partida: gana el pueblo"
     = true
  /\ stage_end_regex (host := forum) "Final de la partida: gana el pueblo"
     = false
  /\ stage_start_regex (host := forum) "Final de la partida: gana el pueblo"
     = false.
Proof.
  assert (H1 : forall t, re_match (Host := forum) "^Final de la partida" t =
                         String.prefix "Final de la partida" t)
    by (intros t; reflexivity).
  assert (H2 : forall t, re_match (Host := forum) "^Final del día [0-9]*" t =
                         String.prefix "Final del día " t)
    by (intros t; reflexivity).
  assert (H3 : forall t, re_match (Host := forum) "^Día [0-9]*" t =
                         String.prefix "Día " t)
    by (intros t; reflexivity).
  assert (H : game_end_regex (host := forum)
                "Final de la partida: gana el pueblo" = true)
    by (vm_compute; reflexivity).
  repeat (split; [assumption|]).
  exact (proj1 (stage_patterns_exclusive (host := forum) _ H1 H2 H3) H).
Defined.

End OnTheForums.
